(** * Portfolio service ([src/main.py]): ledger mutation and valuation

    A shallow embedding of the buy / sell handlers, of the valuation
    ([calculate_portfolio_metrics]) and of the performance report
    ([get_performance]), followed by the properties proved about them.

    Conventions of the embedding.
    - A Python [float] is an IEEE 754 binary64 number: Rocq's primitive
      [float], whose operations round to nearest even exactly as CPython's
      do.  Overflow yields [infinity], invalid operations yield [nan]; the
      only float operation that raises in Python is true division by a zero
      divisor ([ZeroDivisionError]), see [truediv].
    - Every number of [portfolios.json] was written by the service, from a
      request field that pydantic converted to [float] or from arithmetic on
      such fields: all numbers are floats.
    - A JSON object with a fixed set of keys is a record; keys that the
      ledger code never writes ([currentPrice], [totalValue], ...) are
      optional fields, and reading an absent one raises [KeyError].
    - The handlers mutate the dictionary obtained from [load_portfolios] and
      write it back with [save_portfolios] as their last step.  The body of a
      handler is a computation in a state-and-exception monad over the
      in-memory portfolio; the handler itself maps the contents of
      [portfolios.json] before the request to its contents afterwards.
    - [datetime.utcnow().isoformat()] and [get_current_price] read the
      outside world: the clock readings are arguments of the handlers, the
      price feed is a function from tickers to prices. *)

From Stdlib Require Import ZArith String List Floats DecimalString DecimalNat Zpower Lia.
From stdpp Require Import base option list strings gmap.

#[local] Open Scope float_scope.

(** ** Models (the pydantic classes and the JSON objects they describe) *)

Module Position.
Record t := mk {
  ticker : string;
  quantity : float;
  avgCostBasis : float;
  currentPrice : option float;
  marketValue : option float;
  unrealizedPL : option float;
  unrealizedPLPercent : option float;
  addedAt : string }.
End Position.

Module Transaction.
Record t := mk {
  id : string;
  ticker : string;
  type : string;           (* "buy" or "sell" *)
  quantity : float;
  price : float;
  timestamp : string;
  fees : float }.
End Transaction.

Module Portfolio.
Record t := mk {
  userId : string;
  cash : float;
  positions : list Position.t;
  transactions : list Transaction.t;
  totalValue : option float;
  totalPL : option float;
  totalPLPercent : option float }.

(** [portfolio['cash'] = c] and the like: one key rewritten. *)
Definition set_cash (c : float) (p : t) : t :=
  mk (userId p) c (positions p) (transactions p)
     (totalValue p) (totalPL p) (totalPLPercent p).
Definition set_positions (ps : list Position.t) (p : t) : t :=
  mk (userId p) (cash p) ps (transactions p)
     (totalValue p) (totalPL p) (totalPLPercent p).
Definition set_transactions (ts : list Transaction.t) (p : t) : t :=
  mk (userId p) (cash p) (positions p) ts
     (totalValue p) (totalPL p) (totalPLPercent p).
End Portfolio.

Module AddPositionRequest.
Record t := mk { ticker : string; quantity : float; price : float }.
End AddPositionRequest.

Module RemovePositionRequest.
Record t := mk { ticker : string; quantity : float; price : float }.
End RemovePositionRequest.

(** The JSON object a successful buy or sell answers with. *)
Record response := mk_response { message : string; transactionId : string }.

(** ** Exceptions *)

Inductive exception :=
| HTTPException (status_code : Z) (detail : string)
| ZeroDivisionError
| KeyError.

(** The error kinds of the specification, as the handlers raise them. *)
Definition PortfolioNotFound : exception := HTTPException 404 "Portfolio not found".
Definition InsufficientFunds : exception := HTTPException 400 "Insufficient funds".
Definition PositionNotFound : exception := HTTPException 404 "Position not found".
Definition InsufficientShares : exception := HTTPException 400 "Insufficient shares".

(** Python's [x / y] on floats: raises on a zero divisor (of either sign),
    otherwise the IEEE quotient. *)
Definition truediv (x y : float) : exception + float :=
  if y =? 0 then inl ZeroDivisionError else inr (x / y).

(** ** The state-and-exception monad of a handler body

    The state is the in-memory dictionary [portfolio = portfolios[user_id]];
    an outcome records it at the moment the body returned or raised. *)

Inductive outcome (A : Type) :=
| Returned (r : A) (portfolio : Portfolio.t)
| Raised (e : exception) (portfolio : Portfolio.t).
Arguments Returned {A} r portfolio.
Arguments Raised {A} e portfolio.

Definition M (A : Type) : Type := Portfolio.t -> outcome A.

#[global] Instance M_ret : MRet M := fun A a s => Returned a s.
#[global] Instance M_bind : MBind M := fun A B k m s =>
  match m s with
  | Returned a s' => k a s'
  | Raised e s' => Raised e s'
  end.

Definition raise {A} (e : exception) : M A := fun s => Raised e s.
Definition get : M Portfolio.t := fun s => Returned s s.
Definition modify (f : Portfolio.t -> Portfolio.t) : M unit := fun s => Returned tt (f s).
Definition lift {A} (r : exception + A) : M A :=
  match r with inl e => raise e | inr a => mret a end.

(** [str(n)] for a non-negative integer. *)
Definition str (n : nat) : string := NilEmpty.string_of_uint (Nat.to_uint n).

(** [for pos in positions: if pos['ticker'] == ticker: ...; break]: the first
    position of that ticker, with its index in the list (the loop variable is
    an alias of that list element). *)
Definition find_position (ticker : string) (positions : list Position.t)
  : option (nat * Position.t) :=
  list_find (fun pos => Position.ticker pos = ticker) positions.

(** ** [buy_stock] *)

(** Lines 176-220 and the return value: the body once the portfolio is
    loaded.  [added_at] and [timestamp] are the two readings of the clock. *)
Definition buy_stock_body (request : AddPositionRequest.t) (added_at timestamp : string)
  : M response :=
  portfolio ← get;
  (* Calculate total cost *)
  let total_cost := AddPositionRequest.quantity request * AddPositionRequest.price request in
  (* Check if enough cash *)
  (if Portfolio.cash portfolio <? total_cost then raise InsufficientFunds else mret tt);;
  (* Deduct cash *)
  modify (Portfolio.set_cash (Portfolio.cash portfolio - total_cost));;
  (* Find existing position or create new *)
  match find_position (AddPositionRequest.ticker request) (Portfolio.positions portfolio) with
  | Some (i, existing_position) =>
      (* Update average cost basis *)
      let total_quantity :=
        Position.quantity existing_position + AddPositionRequest.quantity request in
      let total_cost_basis :=
        Position.quantity existing_position * Position.avgCostBasis existing_position
        + AddPositionRequest.quantity request * AddPositionRequest.price request in
      avg ← lift (truediv total_cost_basis total_quantity);
      modify (fun p => Portfolio.set_positions
        (<[i := Position.mk (Position.ticker existing_position) total_quantity avg
                 (Position.currentPrice existing_position)
                 (Position.marketValue existing_position)
                 (Position.unrealizedPL existing_position)
                 (Position.unrealizedPLPercent existing_position)
                 (Position.addedAt existing_position)]> (Portfolio.positions p)) p)
  | None =>
      (* Add new position *)
      modify (fun p => Portfolio.set_positions
        (Portfolio.positions p ++
           [Position.mk (AddPositionRequest.ticker request)
              (AddPositionRequest.quantity request) (AddPositionRequest.price request)
              None None None None added_at]) p)
  end;;
  (* Add transaction *)
  portfolio ← get;
  let transaction_id := ("txn_" +:+ str (length (Portfolio.transactions portfolio) + 1))%string in
  modify (Portfolio.set_transactions
    (Portfolio.transactions portfolio ++
       [Transaction.mk transaction_id (AddPositionRequest.ticker request) "buy"
          (AddPositionRequest.quantity request) (AddPositionRequest.price request)
          timestamp 0]));;
  mret (mk_response "Stock purchased successfully" transaction_id).

(** ** [sell_stock] *)

(** Lines 235-272 and the return value.  [positions.remove(position)]
    deletes the first element that is (or equals) [position]; [position] is
    the first element of its ticker, so every element before it differs from
    it and the element deleted is the one at its index. *)
Definition sell_stock_body (request : RemovePositionRequest.t) (timestamp : string)
  : M response :=
  portfolio ← get;
  (* Find position *)
  match find_position (RemovePositionRequest.ticker request) (Portfolio.positions portfolio) with
  | None => raise PositionNotFound
  | Some (i, position) =>
      (if Position.quantity position <? RemovePositionRequest.quantity request
       then raise InsufficientShares else mret tt);;
      (* Calculate proceeds *)
      let proceeds := RemovePositionRequest.quantity request * RemovePositionRequest.price request in
      (* Add cash *)
      modify (fun p => Portfolio.set_cash (Portfolio.cash p + proceeds) p);;
      (* Update or remove position *)
      let position :=
        Position.mk (Position.ticker position)
          (Position.quantity position - RemovePositionRequest.quantity request)
          (Position.avgCostBasis position)
          (Position.currentPrice position) (Position.marketValue position)
          (Position.unrealizedPL position) (Position.unrealizedPLPercent position)
          (Position.addedAt position) in
      modify (fun p => Portfolio.set_positions (<[i := position]> (Portfolio.positions p)) p);;
      (if Position.quantity position =? 0
       then modify (fun p => Portfolio.set_positions (delete i (Portfolio.positions p)) p)
       else mret tt);;
      (* Add transaction *)
      portfolio ← get;
      let transaction_id := ("txn_" +:+ str (length (Portfolio.transactions portfolio) + 1))%string in
      modify (Portfolio.set_transactions
        (Portfolio.transactions portfolio ++
           [Transaction.mk transaction_id (RemovePositionRequest.ticker request) "sell"
              (RemovePositionRequest.quantity request) (RemovePositionRequest.price request)
              timestamp 0]));;
      mret (mk_response "Stock sold successfully" transaction_id)
  end.

(** ** Persistence and the request handlers

    [portfolios.json] holds a dictionary from user ids to portfolios, or does
    not exist ([None]).  [json.dump] followed by [json.load] gives back the
    same floats and strings, so a saved dictionary is loaded unchanged. *)

Definition load_portfolios (file : option (gmap string Portfolio.t)) : gmap string Portfolio.t :=
  match file with Some portfolios => portfolios | None => ∅ end.

Definition save_portfolios (portfolios : gmap string Portfolio.t) : option (gmap string Portfolio.t) :=
  Some portfolios.

(** [verify_token(...).get("user_id")]: the mock user, whatever the token. *)
Definition verify_token (authorization : option string) : string := "user_1".

(** A handler maps the file before the request to the file after it and to
    what the client receives.  An exception leaves the handler before
    [save_portfolios]: the in-memory dictionary is then dropped. *)
Definition handle {A} (body : M A) (file : option (gmap string Portfolio.t))
  : option (gmap string Portfolio.t) * (exception + A) :=
  let user_id := verify_token None in
  let portfolios := load_portfolios file in
  match portfolios !! user_id with
  | None => (file, inl PortfolioNotFound)
  | Some portfolio =>
      match body portfolio with
      | Raised e _ => (file, inl e)
      | Returned r portfolio =>
          (save_portfolios (<[user_id := portfolio]> portfolios), inr r)
      end
  end.

Definition buy_stock (request : AddPositionRequest.t) (added_at timestamp : string) :=
  handle (buy_stock_body request added_at timestamp).

Definition sell_stock (request : RemovePositionRequest.t) (timestamp : string) :=
  handle (sell_stock_body request timestamp).

(** [get_transactions] *)
Definition get_transactions (file : option (gmap string Portfolio.t)) : list Transaction.t :=
  match load_portfolios file !! verify_token None with
  | None => []
  | Some portfolio => Portfolio.transactions portfolio
  end.

(** ** Sequences of operations on one portfolio *)

Inductive operation :=
| Buy (request : AddPositionRequest.t) (added_at timestamp : string)
| Sell (request : RemovePositionRequest.t) (timestamp : string).

Definition apply (op : operation) : M response :=
  match op with
  | Buy request added_at timestamp => buy_stock_body request added_at timestamp
  | Sell request timestamp => sell_stock_body request timestamp
  end.

Definition op_quantity (op : operation) : float :=
  match op with
  | Buy request _ _ => AddPositionRequest.quantity request
  | Sell request _ => RemovePositionRequest.quantity request
  end.

Definition op_price (op : operation) : float :=
  match op with
  | Buy request _ _ => AddPositionRequest.price request
  | Sell request _ => RemovePositionRequest.price request
  end.

(** The portfolios after each operation of a sequence in which every
    operation is accepted; the exception of the first rejected one
    otherwise. *)
Fixpoint run (ops : list operation) (portfolio : Portfolio.t) : exception + list Portfolio.t :=
  match ops with
  | [] => inr []
  | op :: ops =>
      match apply op portfolio with
      | Raised e _ => inl e
      | Returned _ portfolio' =>
          match run ops portfolio' with
          | inl e => inl e
          | inr states => inr (portfolio' :: states)
          end
      end
  end.

(** The portfolio [get_portfolio] creates on first access. *)
Definition new_portfolio (user_id : string) : Portfolio.t :=
  Portfolio.mk user_id 100000.0 [] [] None None None.

(** ** Valuation *)

(** Computations that may raise but touch no state. *)
#[global] Instance exception_ret : MRet (sum exception) := fun A a => inr a.
#[global] Instance exception_bind : MBind (sum exception) := fun A B k m =>
  match m with
  | inl e => inl e
  | inr a => k a
  end.

(** [d[key]] for a key the dictionary may lack. *)
Definition subscript {A} (value : option A) : exception + A :=
  match value with Some v => inr v | None => inl KeyError end.

(** [(pl / basis * 100) if basis > 0 else 0], the expression both percentages
    are computed with.  (The integer literals [100] and [0] stand for the
    floats of the same value: Python converts [100] before multiplying, and
    the response model turns the integer [0] into [0.0].) *)
Definition percent (pl basis : float) : exception + float :=
  if 0 <? basis then q ← truediv pl basis; mret (q * 100) else mret 0.

Module Performance.
Record t := mk {
  initialValue : float;
  currentValue : float;
  totalReturn : float;
  totalPL : float;
  totalPLPercent : float;
  cash : float;
  investedValue : float }.
End Performance.

Section Valuation.
(** The price feed: [get_current_price] answers with the last close, or
    with [0.0] when there is none or the lookup fails. *)
Variable get_current_price : string -> float.

(** One iteration of the loop over [portfolio['positions']]: the position
    with its derived keys set, its market value and its cost basis. *)
Definition value_position (position : Position.t) : exception + (Position.t * float * float) :=
  (* Get current price *)
  let current_price := get_current_price (Position.ticker position) in
  (* Calculate market value *)
  let market_value := Position.quantity position * current_price in
  (* Calculate cost basis *)
  let cost_basis := Position.quantity position * Position.avgCostBasis position in
  (* Calculate unrealized P&L *)
  let unrealized_pl := market_value - cost_basis in
  unrealized_pl_percent ← percent unrealized_pl cost_basis;
  mret (Position.mk (Position.ticker position) (Position.quantity position)
          (Position.avgCostBasis position)
          (Some current_price) (Some market_value)
          (Some unrealized_pl) (Some unrealized_pl_percent)
          (Position.addedAt position),
        market_value, cost_basis).

(** The loop, with its two accumulators. *)
Fixpoint value_positions (positions : list Position.t)
    (total_market_value total_cost_basis : float)
  : exception + (list Position.t * float * float) :=
  match positions with
  | [] => mret ([], total_market_value, total_cost_basis)
  | position :: positions =>
      '(position, market_value, cost_basis) ← value_position position;
      '(positions, total_market_value, total_cost_basis) ←
        value_positions positions
          (total_market_value + market_value) (total_cost_basis + cost_basis);
      mret (position :: positions, total_market_value, total_cost_basis)
  end.

Definition calculate_portfolio_metrics (portfolio : Portfolio.t) : exception + Portfolio.t :=
  let total_market_value := Portfolio.cash portfolio in
  let total_cost_basis := Portfolio.cash portfolio in
  '(positions, total_market_value, total_cost_basis) ←
    value_positions (Portfolio.positions portfolio) total_market_value total_cost_basis;
  (* Calculate total P&L *)
  let totalPL := total_market_value - total_cost_basis in
  totalPLPercent ← percent totalPL total_cost_basis;
  mret (Portfolio.mk (Portfolio.userId portfolio) (Portfolio.cash portfolio)
          positions (Portfolio.transactions portfolio)
          (Some total_market_value) (Some totalPL) (Some totalPLPercent)).

(** [get_portfolio]: creates and saves the portfolio on first access; the
    valued portfolio it answers with is not saved. *)
Definition get_portfolio (file : option (gmap string Portfolio.t))
  : option (gmap string Portfolio.t) * (exception + Portfolio.t) :=
  let user_id := verify_token None in
  let portfolios := load_portfolios file in
  match portfolios !! user_id with
  | None =>
      let portfolios := <[user_id := new_portfolio user_id]> portfolios in
      (save_portfolios portfolios, calculate_portfolio_metrics (new_portfolio user_id))
  | Some portfolio => (file, calculate_portfolio_metrics portfolio)
  end.

(** [get_performance], from the loaded portfolio on (lines 298-314). *)
Definition performance_of (portfolio : Portfolio.t) : exception + Performance.t :=
  portfolio ← calculate_portfolio_metrics portfolio;
  (* Calculate additional metrics *)
  let initial_value := 100000.0 in
  current_value ← subscript (Portfolio.totalValue portfolio);
  r ← truediv (current_value - initial_value) initial_value;
  let total_return := r * 100 in
  totalPL ← subscript (Portfolio.totalPL portfolio);
  totalPLPercent ← subscript (Portfolio.totalPLPercent portfolio);
  mret (Performance.mk initial_value current_value total_return
          totalPL totalPLPercent (Portfolio.cash portfolio)
          (current_value - Portfolio.cash portfolio)).

Definition get_performance (file : option (gmap string Portfolio.t))
  : exception + Performance.t :=
  match load_portfolios file !! verify_token None with
  | None => inl PortfolioNotFound
  | Some portfolio => performance_of portfolio
  end.
End Valuation.

(** ** Definitions used to state the properties *)

(** The id of the [n]-th transaction of a portfolio. *)
Definition txn_id (n : nat) : string := ("txn_" +:+ str n)%string.

(** A transaction log whose ids read [txn_1], [txn_2], ... in order. *)
Definition sequential (transactions : list Transaction.t) : Prop :=
  Transaction.id <$> transactions = txn_id <$> seq 1 (length transactions).

(** The preconditions of the specification on an order, in the code's own
    comparisons, and the absence of overflow in its value. *)
Definition valid_order (op : operation) : Prop :=
  (0 <? op_quantity op) = true /\ (0 <=? op_price op) = true.

Definition finite_value (op : operation) : Prop :=
  is_finite (op_quantity op * op_price op) = true.

(** [0 <= x] and finiteness, read on the sign-and-magnitude form of a float. *)
Definition SFnonneg (x : spec_float) : bool :=
  match x with
  | S754_zero _ | S754_infinity false | S754_finite false _ _ => true
  | _ => false
  end.

Definition SFfinite (x : spec_float) : bool :=
  match x with
  | S754_zero _ | S754_finite _ _ _ => true
  | _ => false
  end.


(** The position a buy of [request] turns the held position [pos] into. *)
Definition bought (request : AddPositionRequest.t) (pos : Position.t) : Position.t :=
  let q0 := Position.quantity pos in
  let a0 := Position.avgCostBasis pos in
  let q := AddPositionRequest.quantity request in
  let p := AddPositionRequest.price request in
  Position.mk (Position.ticker pos) (q0 + q) ((q0 * a0 + q * p) / (q0 + q))
    (Position.currentPrice pos) (Position.marketValue pos)
    (Position.unrealizedPL pos) (Position.unrealizedPLPercent pos) (Position.addedAt pos).

(** The position a sell of [request] turns the held position [pos] into. *)
Definition sold (request : RemovePositionRequest.t) (pos : Position.t) : Position.t :=
  Position.mk (Position.ticker pos)
    (Position.quantity pos - RemovePositionRequest.quantity request)
    (Position.avgCostBasis pos)
    (Position.currentPrice pos) (Position.marketValue pos)
    (Position.unrealizedPL pos) (Position.unrealizedPLPercent pos) (Position.addedAt pos).

Definition buy_transaction (request : AddPositionRequest.t) (timestamp : string)
    (portfolio : Portfolio.t) : Transaction.t :=
  Transaction.mk (txn_id (length (Portfolio.transactions portfolio) + 1))
    (AddPositionRequest.ticker request) "buy"
    (AddPositionRequest.quantity request) (AddPositionRequest.price request) timestamp 0.

Definition sell_transaction (request : RemovePositionRequest.t) (timestamp : string)
    (portfolio : Portfolio.t) : Transaction.t :=
  Transaction.mk (txn_id (length (Portfolio.transactions portfolio) + 1))
    (RemovePositionRequest.ticker request) "sell"
    (RemovePositionRequest.quantity request) (RemovePositionRequest.price request) timestamp 0.

(** The transaction an accepted operation appends. *)
Definition transaction_of (op : operation) (portfolio : Portfolio.t) : Transaction.t :=
  match op with
  | Buy request _ timestamp => buy_transaction request timestamp portfolio
  | Sell request timestamp => sell_transaction request timestamp portfolio
  end.

(** Concrete portfolios and orders on which the properties are exercised. *)
Module Example.
Definition aapl : Position.t :=
  Position.mk "AAPL" 10 100 None None None None "2024-01-02T10:00:00".
Definition msft : Position.t :=
  Position.mk "MSFT" 4 250 None None None None "2024-01-03T10:00:00".

(** A user who bought 10 AAPL at 100 and 4 MSFT at 250. *)
Definition held : Portfolio.t :=
  Portfolio.mk "user_1" 98000 [aapl; msft]
    [Transaction.mk "txn_1" "AAPL" "buy" 10 100 "2024-01-02T10:00:00" 0;
     Transaction.mk "txn_2" "MSFT" "buy" 4 250 "2024-01-03T10:00:00" 0]
    None None None.

Definition buy_aapl : AddPositionRequest.t := AddPositionRequest.mk "AAPL" 10 200.
Definition buy_goog : AddPositionRequest.t := AddPositionRequest.mk "GOOG" 2 140.
Definition sell_aapl : RemovePositionRequest.t := RemovePositionRequest.mk "AAPL" 4 120.
Definition sell_all_msft : RemovePositionRequest.t := RemovePositionRequest.mk "MSFT" 4 300.
Definition sell_goog : RemovePositionRequest.t := RemovePositionRequest.mk "GOOG" 1 140.
Definition sell_too_much : RemovePositionRequest.t := RemovePositionRequest.mk "MSFT" 5 300.
Definition buy_too_much : AddPositionRequest.t := AddPositionRequest.mk "AAPL" 1000 200.
Definition buy_all_cash : AddPositionRequest.t := AddPositionRequest.mk "GOOG" 980 100.
Definition buy_negative : AddPositionRequest.t := AddPositionRequest.mk "AAPL" (-5) 10.
Definition buy_negative_dear : AddPositionRequest.t :=
  AddPositionRequest.mk "AAPL" (-1000) (-1000).
Definition free_shares : Position.t :=
  Position.mk "GIFT" 3 0 None None None None "2024-01-04T10:00:00".
Definition quote (ticker : string) : float :=
  if String.eqb ticker "AAPL" then 180 else if String.eqb ticker "MSFT" then 240 else 0.
Definition now : string := "2024-02-01T09:30:00".
Definition sell_all_aapl_short : AddPositionRequest.t := AddPositionRequest.mk "AAPL" (-10) 100.

(** The end-to-end scenario of the specification: buy 10 AAPL at 150, 10
    more at 170, sell 5 at 200. *)
Definition scenario : list operation :=
  [Buy (AddPositionRequest.mk "AAPL" 10 150) "t1" "t1";
   Buy (AddPositionRequest.mk "AAPL" 10 170) "t2" "t2";
   Sell (RemovePositionRequest.mk "AAPL" 5 200) "t3"].

Definition session : list operation :=
  [Buy buy_aapl now now; Sell sell_aapl now; Buy buy_goog now now; Sell sell_all_msft now].

(** Three orders with positive finite quantities and non-negative finite
    prices whose values overflow: 1e200 shares bought for nothing, sold at
    1e200 apiece (the proceeds round to infinity), and bought again at that
    price (the cost rounds to infinity too). *)
#[warnings="-inexact-float"]
Definition buy_x_free : AddPositionRequest.t := AddPositionRequest.mk "X" 1e200 0.
#[warnings="-inexact-float"]
Definition sell_x_dear : RemovePositionRequest.t := RemovePositionRequest.mk "X" 1e200 1e200.
#[warnings="-inexact-float"]
Definition buy_x_dear : AddPositionRequest.t := AddPositionRequest.mk "X" 1e200 1e200.
End Example.

(** The valuation as the specification words it. *)
Module Spec.
Section Formulas.
Variable price : string -> float.

Definition marketValue (pos : Position.t) : float :=
  Position.quantity pos * price (Position.ticker pos).
Definition costBasis (pos : Position.t) : float :=
  Position.quantity pos * Position.avgCostBasis pos.
Definition unrealizedPL (pos : Position.t) : float :=
  marketValue pos - costBasis pos.
Definition unrealizedPLPercent (pos : Position.t) : float :=
  if 0 <? costBasis pos then unrealizedPL pos / costBasis pos * 100 else 0.

Definition valued (pos : Position.t) : Position.t :=
  Position.mk (Position.ticker pos) (Position.quantity pos) (Position.avgCostBasis pos)
    (Some (price (Position.ticker pos))) (Some (marketValue pos))
    (Some (unrealizedPL pos)) (Some (unrealizedPLPercent pos))
    (Position.addedAt pos).

(** [cash + Σ marketValue] and [cash + Σ costBasis], summed in the order
    of the positions. *)
Definition totalMarketValue (p : Portfolio.t) : float :=
  fold_left (fun acc pos => acc + marketValue pos) (Portfolio.positions p) (Portfolio.cash p).
Definition totalCostBasis (p : Portfolio.t) : float :=
  fold_left (fun acc pos => acc + costBasis pos) (Portfolio.positions p) (Portfolio.cash p).
Definition totalPL (p : Portfolio.t) : float :=
  totalMarketValue p - totalCostBasis p.
Definition totalPLPercent (p : Portfolio.t) : float :=
  if 0 <? totalCostBasis p then totalPL p / totalCostBasis p * 100 else 0.
End Formulas.
End Spec.

(** ** The rest of the service *)

(** [get_current_price].  What [yfinance] answers is a parameter:
    [history ticker] is the column [data['Close']] of
    [yf.Ticker(ticker).history(period="1d")], oldest row first, or [None]
    when the library raised (the handler of [except Exception] then answers
    [0.0]).  An empty frame has no rows. *)
Section PriceFeed.
Variable history : string -> option (list float).

Definition get_current_price (ticker : string) : float :=
  match history ticker with
  | Some closes =>
      match last closes with
      | Some close => close
      | None => 0.0
      end
  | None => 0.0
  end.
End PriceFeed.

(** The requests the service answers, and what each does to the file:
    [get_transactions] and [get_performance] only read it. *)
Inductive request :=
| GetPortfolio
| PostBuy (order : AddPositionRequest.t) (added_at timestamp : string)
| PostSell (order : RemovePositionRequest.t) (timestamp : string)
| GetTransactions
| GetPerformance.

Definition serve (price : string -> float) (r : request)
    (file : option (gmap string Portfolio.t)) : option (gmap string Portfolio.t) :=
  match r with
  | GetPortfolio => (get_portfolio price file).1
  | PostBuy order added_at timestamp => (buy_stock order added_at timestamp file).1
  | PostSell order timestamp => (sell_stock order timestamp file).1
  | GetTransactions | GetPerformance => file
  end.

(** A session: requests served one after the other, each with the prices of
    its moment. *)
Fixpoint serve_all (rs : list ((string -> float) * request))
    (file : option (gmap string Portfolio.t)) : option (gmap string Portfolio.t) :=
  match rs with
  | [] => file
  | (price, r) :: rs => serve_all rs (serve price r file)
  end.

(** ** Further definitions used to state properties *)

(** The ledger part of a position and of a portfolio: the derived keys
    dropped. *)
Definition unvalued (pos : Position.t) : Position.t :=
  Position.mk (Position.ticker pos) (Position.quantity pos) (Position.avgCostBasis pos)
    None None None None (Position.addedAt pos).

Definition ledger_of (p : Portfolio.t) : Portfolio.t :=
  Portfolio.mk (Portfolio.userId p) (Portfolio.cash p)
    (unvalued <$> Portfolio.positions p) (Portfolio.transactions p) None None None.

(** What a stored portfolio looks like: it belongs to the mock user, its log
    is numbered in order, it holds at most one position per ticker and no
    derived key. *)
Definition stored_ok (p : Portfolio.t) : Prop :=
  Portfolio.userId p = "user_1"%string
  /\ sequential (Portfolio.transactions p)
  /\ NoDup (Position.ticker <$> Portfolio.positions p)
  /\ ledger_of p = p.

Definition file_ok (file : option (gmap string Portfolio.t)) : Prop :=
  forall k p, load_portfolios file !! k = Some p -> k = "user_1"%string /\ stored_ok p.

(** An order as it is asked and as it is logged: ticker, side, quantity and
    price. *)
Definition order_asked (op : operation) : string * string * float * float :=
  match op with
  | Buy order _ _ =>
      (AddPositionRequest.ticker order, "buy"%string,
       AddPositionRequest.quantity order, AddPositionRequest.price order)
  | Sell order _ =>
      (RemovePositionRequest.ticker order, "sell"%string,
       RemovePositionRequest.quantity order, RemovePositionRequest.price order)
  end.

Definition order_logged (txn : Transaction.t) : string * string * float * float :=
  (Transaction.ticker txn, Transaction.type txn,
   Transaction.quantity txn, Transaction.price txn).

(** Positive finite quantity, non-negative price. *)
Definition finite_order (op : operation) : Prop :=
  valid_order op /\ is_finite (op_quantity op) = true.

(** Every position holds a positive number of shares. *)
Definition positive_quantities (p : Portfolio.t) : Prop :=
  Forall (fun pos => (0 <? Position.quantity pos) = true) (Portfolio.positions p).

(** [0 < x], read on the sign-and-magnitude form of a float. *)
Definition SFpos (x : spec_float) : bool :=
  match x with
  | S754_infinity false | S754_finite false _ _ => true
  | _ => false
  end.

(** The cash once an order is booked. *)
Definition book (cash : float) (op : operation) : float :=
  match op with
  | Buy order _ _ =>
      cash - AddPositionRequest.quantity order * AddPositionRequest.price order
  | Sell order _ =>
      cash + RemovePositionRequest.quantity order * RemovePositionRequest.price order
  end.

(** The portfolio a sequence of accepted operations ends with. *)
Definition final (portfolio : Portfolio.t) (states : list Portfolio.t) : Portfolio.t :=
  match last states with Some s => s | None => portfolio end.

(** * Properties *)

(** ** Binary64 arithmetic *)

Module Binary64.

(** The sign-and-magnitude reading of the constants the code uses. *)
Lemma Prim2SF_zero : Prim2SF 0 = S754_zero false.
Proof. reflexivity. Qed.

Lemma Prim2SF_infinity : Prim2SF infinity = S754_infinity false.
Proof. reflexivity. Qed.

Lemma leb_zero_spec x : (0 <=? x) = SFnonneg (Prim2SF x).
Proof. rewrite FloatAxioms.leb_spec, Prim2SF_zero. by destruct (Prim2SF x) as [[]|[]| |[]]. Qed.

Lemma is_finite_spec x : is_finite x = SFfinite (Prim2SF x).
Proof.
  unfold is_finite, is_nan, is_infinity.
  rewrite !FloatAxioms.eqb_spec, abs_spec, Prim2SF_infinity.
  destruct (Prim2SF x) as [[]|[]| |s m e]; try reflexivity.
  unfold SFeqb, SFcompare, SFabs, SFfinite.
  rewrite Z.compare_refl, Pos.compare_cont_refl. by destruct s.
Qed.

(** *** Comparisons *)

Lemma eqb_not_ltb x y : (x =? y) = true -> (x <? y) = false.
Proof.
  rewrite FloatAxioms.eqb_spec, FloatAxioms.ltb_spec. unfold SFeqb, SFltb.
  by destruct (SFcompare (Prim2SF x) (Prim2SF y)) as [[]|].
Qed.

Lemma pos_not_zero x : (0 <? x) = true -> (x =? 0) = false.
Proof.
  rewrite FloatAxioms.eqb_spec, FloatAxioms.ltb_spec, Prim2SF_zero.
  by destruct (Prim2SF x) as [[]|[]| |[]].
Qed.

Lemma pos_nonneg x : (0 <? x) = true -> (0 <=? x) = true.
Proof.
  rewrite FloatAxioms.leb_spec, FloatAxioms.ltb_spec. unfold SFleb, SFltb.
  by destruct (SFcompare _ _) as [[]|].
Qed.

Lemma finite_not_nan x : is_finite x = true -> is_nan x = false.
Proof. unfold is_finite. by destruct (is_nan x). Qed.

Lemma eqb_zero_spec x : (x =? 0) = true -> exists s, Prim2SF x = S754_zero s.
Proof.
  rewrite FloatAxioms.eqb_spec, Prim2SF_zero.
  destruct (Prim2SF x) as [s|[]| |[]]; try discriminate. by exists s.
Qed.

(** *** Rounding keeps the sign *)

Lemma iter_pos_invariant {A} (P : A -> Prop) (f : A -> A) :
  (forall a, P a -> P (f a)) -> forall n a, P a -> P (SpecFloat.iter_pos f n a).
Proof.
  intros Hf. induction n as [n IH|n IH|]; intros a Ha; simpl; auto.
Qed.

Lemma shr_1_nonneg mrs : (0 <= shr_m mrs)%Z -> (0 <= shr_m (shr_1 mrs))%Z.
Proof. destruct mrs as [[|[]|[]] r s]; simpl; lia. Qed.

Lemma shr_nonneg mrs e n : (0 <= shr_m mrs)%Z -> (0 <= shr_m (fst (shr mrs e n)))%Z.
Proof.
  intros H. destruct n; simpl; try done.
  by apply (iter_pos_invariant (fun mrs => (0 <= shr_m mrs)%Z)), H; apply shr_1_nonneg.
Qed.

Lemma shr_fexp_nonneg m e l :
  (0 <= m)%Z -> (0 <= shr_m (fst (shr_fexp prec emax m e l)))%Z.
Proof.
  intros H. unfold shr_fexp. apply shr_nonneg. by destruct l as [|[]].
Qed.

Lemma round_nearest_even_nonneg m l : (0 <= m)%Z -> (0 <= round_nearest_even m l)%Z.
Proof. destruct l as [|[]]; simpl; try destruct (Z.even m); lia. Qed.

Lemma binary_round_aux_nonneg m e l :
  (0 <= m)%Z -> SFnonneg (binary_round_aux prec emax false m e l) = true.
Proof.
  intros H. unfold binary_round_aux.
  pose proof (shr_fexp_nonneg m e l H) as H1.
  destruct (shr_fexp prec emax m e l) as [mrs' e']. simpl in H1.
  pose proof (shr_fexp_nonneg _ e' loc_Exact
                (round_nearest_even_nonneg _ (loc_of_shr_record mrs') H1)) as H2.
  destruct (shr_fexp prec emax _ e' loc_Exact) as [mrs'' e'']. simpl in H2.
  destruct (shr_m mrs''); [done| |lia].
  by destruct (Z.leb _ _).
Qed.

Lemma binary_normalize_nonneg m e :
  (0 <= m)%Z -> SFnonneg (binary_normalize prec emax m e false) = true.
Proof.
  intros H. destruct m as [|m|m]; [done| |lia].
  unfold binary_normalize, binary_round.
  destruct (shl_align _ _ _) as [mz ez]. by apply binary_round_aux_nonneg.
Qed.

(** *** Sums and products of non-negative numbers *)

Lemma add_nonneg x y : (0 <=? x) = true -> (0 <=? y) = true -> (0 <=? x + y) = true.
Proof.
  rewrite !leb_zero_spec, add_spec.
  destruct (Prim2SF x) as [[]|[]| |[] mx ex], (Prim2SF y) as [[]|[]| |[] my ey];
    try done; intros _ _.
  unfold SF64add, SFadd, cond_Zopp. by apply binary_normalize_nonneg.
Qed.

Lemma mul_nonneg x y :
  (0 <=? x) = true -> (0 <=? y) = true -> is_nan (x * y) = false -> (0 <=? x * y) = true.
Proof.
  unfold is_nan. rewrite !leb_zero_spec, FloatAxioms.eqb_spec, mul_spec.
  destruct (Prim2SF x) as [[]|[]| |[] mx ex], (Prim2SF y) as [[]|[]| |[] my ey];
    try done; intros _ _ _.
  unfold SF64mul, SFmul. by apply binary_round_aux_nonneg.
Qed.

Lemma mul_zero_not_pos x y : (y =? 0) = true -> (0 <? x * y) = false.
Proof.
  intros [s Hy]%eqb_zero_spec.
  rewrite FloatAxioms.ltb_spec, mul_spec, Hy, Prim2SF_zero.
  by destruct (Prim2SF x) as [[]|[]| |[] mx ex], s.
Qed.

(** *** Differences *)

Lemma shl_align_same m e : shl_align m e e = (m, e).
Proof. unfold shl_align. by rewrite Z.sub_diag. Qed.

Lemma digits2_pos_bounds m :
  (2 ^ (Z.pos (digits2_pos m) - 1) <= Z.pos m < 2 ^ Z.pos (digits2_pos m))%Z.
Proof.
  induction m as [m IH|m IH|]; simpl digits2_pos; [| |simpl; lia].
  all: rewrite Pos2Z.inj_succ; set (d := Z.pos (digits2_pos m)) in *.
  all: replace (Z.succ d - 1)%Z with d by lia.
  all: rewrite Z.pow_succ_r by lia.
  all: assert (2 ^ d = 2 * 2 ^ (d - 1))%Z as E
    by (replace d with (Z.succ (d - 1)) at 1 by lia; apply Z.pow_succ_r; lia).
  all: lia.
Qed.

(** Comparing two valid positive numbers compares their mantissas once
    they are aligned on the smaller exponent. *)
Lemma align_le m1 e1 m2 e2 :
  bounded prec emax m1 e1 = true -> bounded prec emax m2 e2 = true ->
  SFltb (S754_finite false m1 e1) (S754_finite false m2 e2) = false ->
  (Z.pos (fst (shl_align m2 e2 (Z.min e1 e2))) <= Z.pos (fst (shl_align m1 e1 (Z.min e1 e2))))%Z.
Proof.
  unfold bounded, canonical_mantissa, fexp, SFltb, SFcompare.
  intros [H1 _]%andb_prop [H2 _]%andb_prop.
  apply Z.eqb_eq in H1, H2.
  destruct (Z.compare_spec e1 e2) as [->|Hlt|Hgt]; [|done|]; intros Hcmp.
  - rewrite Z.min_id, !shl_align_same. simpl.
    change (Pos.compare_cont Eq m1 m2) with (m1 ?= m2)%positive in Hcmp.
    destruct (Pos.compare_spec m1 m2); try done; lia.
  - rewrite Z.min_r by lia. rewrite shl_align_same. unfold shl_align.
    destruct (e2 - e1)%Z as [|d|d] eqn:Hd; try lia. simpl.
    change (Pos.iter xO m1 d) with (shift_pos d m1).
    rewrite shift_pos_correct, Zpower_pos_nat, Zpower_nat_Z.
    pose proof (digits2_pos_bounds m1) as B1.
    pose proof (digits2_pos_bounds m2) as B2.
    assert (Z.pos (digits2_pos m1) = 53%Z) as E1 by (unfold prec, emin, emax in *; lia).
    assert (Z.pos (digits2_pos m2) <= 53)%Z as E2 by (unfold prec, emin, emax in *; lia).
    rewrite E1 in B1.
    assert (2 ^ Z.pos (digits2_pos m2) <= 2 ^ 53)%Z by (apply Z.pow_le_mono_r; lia).
    assert (2 ^ 1 <= 2 ^ Z.of_nat (Pos.to_nat d))%Z by (apply Z.pow_le_mono_r; lia).
    change (2 ^ (53 - 1))%Z with 4503599627370496%Z in B1.
    change (2 ^ 53)%Z with 9007199254740992%Z in *.
    change (2 ^ 1)%Z with 2%Z in *.
    nia.
Qed.

Lemma sub_nonneg x y :
  (0 <=? x) = true -> (0 <=? y) = true -> is_finite y = true -> (x <? y) = false ->
  (0 <=? x - y) = true.
Proof.
  rewrite !leb_zero_spec, is_finite_spec, FloatAxioms.ltb_spec, sub_spec.
  pose proof (Prim2SF_valid x) as Vx. pose proof (Prim2SF_valid y) as Vy.
  destruct (Prim2SF x) as [[]|[]| |[] mx ex], (Prim2SF y) as [[]|[]| |[] my ey];
    try done; intros _ _ _ Hlt.
  unfold SF64sub, SFsub, cond_Zopp. apply binary_normalize_nonneg.
  pose proof (align_le mx ex my ey Vx Vy Hlt). lia.
Qed.

Lemma sub_eqb_zero x y :
  is_finite x = true -> (x =? y) = true -> (x - y =? 0) = true.
Proof.
  rewrite is_finite_spec, !FloatAxioms.eqb_spec, sub_spec, Prim2SF_zero.
  destruct (Prim2SF x) as [[]|[]| |sx mx ex], (Prim2SF y) as [[]|[]| |sy my ey];
    try done; try (by destruct sy); intros _.
  unfold SFeqb at 1. unfold SFcompare.
  destruct sx, sy; try done.
  all: destruct (Z.compare_spec ex ey) as [->| |]; try done.
  all: change (Pos.compare_cont Eq mx my) with (mx ?= my)%positive.
  all: destruct (Pos.compare_spec mx my) as [->| |]; try done; intros _.
  all: unfold SF64sub, SFsub; rewrite Z.min_id, shl_align_same, Z.sub_diag; done.
Qed.
End Binary64.

(** ** The ledger: what one buy and one sell do *)

Ltac unfold_body :=
  unfold buy_stock_body, sell_stock_body, mbind, M_bind, mret, M_ret,
    get, modify, raise, lift, truediv.

Lemma find_position_Some ticker positions i pos :
  find_position ticker positions = Some (i, pos) ->
  positions !! i = Some pos /\ Position.ticker pos = ticker.
Proof. intros (? & ? & _)%list_find_Some. done. Qed.

Lemma find_position_None ticker positions :
  find_position ticker positions = None <->
  Forall (fun pos => Position.ticker pos <> ticker) positions.
Proof. apply list_find_None. Qed.

(** The four ways a buy ends. *)
Lemma buy_stock_body_cases request added_at timestamp portfolio :
  let q := AddPositionRequest.quantity request in
  let p := AddPositionRequest.price request in
  let paid := Portfolio.set_cash (Portfolio.cash portfolio - q * p) portfolio in
  let log := Portfolio.transactions portfolio ++ [buy_transaction request timestamp portfolio] in
  let answer := mk_response "Stock purchased successfully"
                  (txn_id (length (Portfolio.transactions portfolio) + 1)) in
  buy_stock_body request added_at timestamp portfolio =
    if Portfolio.cash portfolio <? q * p then Raised InsufficientFunds portfolio
    else match find_position (AddPositionRequest.ticker request) (Portfolio.positions portfolio) with
         | Some (i, pos) =>
             if Position.quantity pos + q =? 0 then Raised ZeroDivisionError paid
             else Returned answer
                    (Portfolio.set_transactions log
                       (Portfolio.set_positions
                          (<[i := bought request pos]> (Portfolio.positions portfolio)) paid))
         | None =>
             Returned answer
               (Portfolio.set_transactions log
                  (Portfolio.set_positions
                     (Portfolio.positions portfolio ++
                        [Position.mk (AddPositionRequest.ticker request) q p
                           None None None None added_at]) paid))
         end.
Proof.
  unfold_body. simpl.
  destruct (Portfolio.cash portfolio <? _); [done|].
  destruct (find_position _ _) as [[i pos]|]; [|done].
  by destruct (Position.quantity pos + _ =? 0).
Qed.

(** The three ways a sell ends. *)
Lemma sell_stock_body_cases request timestamp portfolio :
  let q := RemovePositionRequest.quantity request in
  let p := RemovePositionRequest.price request in
  let log := Portfolio.transactions portfolio ++ [sell_transaction request timestamp portfolio] in
  let answer := mk_response "Stock sold successfully"
                  (txn_id (length (Portfolio.transactions portfolio) + 1)) in
  sell_stock_body request timestamp portfolio =
    match find_position (RemovePositionRequest.ticker request) (Portfolio.positions portfolio) with
    | None => Raised PositionNotFound portfolio
    | Some (i, pos) =>
        if Position.quantity pos <? q then Raised InsufficientShares portfolio
        else Returned answer
               (Portfolio.set_transactions log
                  (Portfolio.set_positions
                     (if Position.quantity pos - q =? 0
                      then delete i (<[i := sold request pos]> (Portfolio.positions portfolio))
                      else <[i := sold request pos]> (Portfolio.positions portfolio))
                     (Portfolio.set_cash (Portfolio.cash portfolio + q * p) portfolio)))
    end.
Proof.
  unfold_body. simpl.
  destruct (find_position _ _) as [[i pos]|]; [|done].
  destruct (Position.quantity pos <? _); [done|]. simpl.
  by destruct (Position.quantity pos - _ =? 0).
Qed.

(** Deleting the element just written is deleting the element. *)
Lemma delete_insert_same {A} (l : list A) i x : delete i (<[i := x]> l) = delete i l.
Proof.
  revert i. induction l as [|y l IH]; intros [|i]; simpl; try done. by rewrite IH.
Qed.

(** A position that was updated in place is still the first of its ticker. *)
Lemma find_position_insert ticker positions i pos pos' :
  find_position ticker positions = Some (i, pos) ->
  Position.ticker pos' = ticker ->
  find_position ticker (<[i := pos']> positions) = Some (i, pos').
Proof.
  intros (Hi & _ & Hbefore)%list_find_Some Ht. apply list_find_Some.
  split_and!; [|done|].
  - apply list_lookup_insert_eq. by eapply lookup_lt_Some.
  - intros j y Hj Hlt. rewrite list_lookup_insert_ne in Hj by lia. eauto.
Qed.

Lemma find_position_append ticker positions pos :
  find_position ticker positions = None ->
  Position.ticker pos = ticker ->
  find_position ticker (positions ++ [pos]) = Some (length positions, pos).
Proof.
  intros Hnone%find_position_None Ht. apply list_find_Some. split_and!; [|done|].
  - by rewrite lookup_app_r, Nat.sub_diag.
  - intros j y Hj Hlt. rewrite lookup_app_l in Hj by done.
    by eapply (Forall_lookup_1 _ _ _ _ Hnone).
Qed.

(** C1.  After a successful buy of quantity [q] at price [p]: if the
    portfolio held a position of the ticker, with quantity [q0] and average
    cost basis [a0], that position now has quantity [q0 + q] and average cost
    basis [(q0*a0 + q*p) / (q0 + q)], its other keys and every other position
    being as before; if it held none, the positions are the former ones
    followed by exactly one new position of the ticker, with quantity [q] and
    average cost basis [p]. *)
Theorem buy_position_update request added_at timestamp portfolio answer portfolio' :
  buy_stock_body request added_at timestamp portfolio = Returned answer portfolio' ->
  let t := AddPositionRequest.ticker request in
  let q := AddPositionRequest.quantity request in
  let p := AddPositionRequest.price request in
  (forall i pos,
     find_position t (Portfolio.positions portfolio) = Some (i, pos) ->
     let q0 := Position.quantity pos in
     let a0 := Position.avgCostBasis pos in
     let pos' := Position.mk (Position.ticker pos) (q0 + q) ((q0 * a0 + q * p) / (q0 + q))
                   (Position.currentPrice pos) (Position.marketValue pos)
                   (Position.unrealizedPL pos) (Position.unrealizedPLPercent pos)
                   (Position.addedAt pos) in
     Portfolio.positions portfolio' = <[i := pos']> (Portfolio.positions portfolio)
     /\ find_position t (Portfolio.positions portfolio') = Some (i, pos')
     /\ forall j, j <> i ->
          Portfolio.positions portfolio' !! j = Portfolio.positions portfolio !! j)
  /\ (find_position t (Portfolio.positions portfolio) = None ->
      let pos' := Position.mk t q p None None None None added_at in
      Portfolio.positions portfolio' = Portfolio.positions portfolio ++ [pos']
      /\ find_position t (Portfolio.positions portfolio')
         = Some (length (Portfolio.positions portfolio), pos')).
Proof.
  rewrite buy_stock_body_cases. intros H t q p.
  destruct (Portfolio.cash portfolio <? _); [done|].
  destruct (find_position _ _) as [[i pos]|] eqn:Hfind.
  - destruct (Position.quantity pos + _ =? 0); [done|].
    injection H as _ <-. split; [|done].
    intros ? ? [= <- <-]. simpl. split_and!; [done| |].
    + eapply find_position_insert; [done|]. simpl. by eapply find_position_Some.
    + intros j Hj. by rewrite list_lookup_insert_ne.
  - injection H as _ <-. split; [done|]. intros _. simpl. split; [done|].
    by apply find_position_append.
Qed.

(** The example of the specification: 10 shares bought at 100, then 10 more
    at 200, make 20 shares at an average cost of 150; buying a ticker that
    is not held appends its position. *)
Lemma buy_position_update_witness :
  exists answer portfolio',
    buy_stock_body Example.buy_aapl Example.now Example.now Example.held
    = Returned answer portfolio'
    /\ Portfolio.positions portfolio'
       = [Position.mk "AAPL" 20 150 None None None None "2024-01-02T10:00:00"; Example.msft].
Proof.
  eexists _, _. split; [vm_compute; reflexivity|].
  rewrite (proj1 (proj1 (buy_position_update Example.buy_aapl Example.now Example.now
                           Example.held _ _ ltac:(vm_compute; reflexivity))
                    0%nat Example.aapl ltac:(vm_compute; reflexivity))).
  vm_compute. reflexivity.
Defined.

(** Once the first position of a ticker is deleted from positions with
    pairwise distinct tickers, none of that ticker is left. *)
Lemma find_position_delete ticker positions i pos :
  find_position ticker positions = Some (i, pos) ->
  NoDup (Position.ticker <$> positions) ->
  find_position ticker (delete i positions) = None.
Proof.
  intros [Hi Ht]%find_position_Some Hnodup.
  apply find_position_None, Forall_lookup_2. intros j pos' Hj Heq.
  assert (forall k, positions !! k = Some pos' -> k = i) as Hsame.
  { intros k Hk. eapply NoDup_lookup; [done| |].
    - by rewrite list_lookup_fmap, Hk.
    - rewrite list_lookup_fmap, Hi. simpl. congruence. }
  destruct (decide (j < i)) as [Hlt|Hge].
  - rewrite list_lookup_delete_lt in Hj by done. apply Hsame in Hj. lia.
  - rewrite list_lookup_delete_ge in Hj by lia. apply Hsame in Hj. lia.
Qed.

(** C2.  Selling quantity [q] of a ticker at price [p]: [PositionNotFound]
    when the portfolio holds no position of the ticker; [InsufficientShares]
    when the held quantity is strictly less than [q], which a held quantity
    equal to [q] is not; otherwise the sell succeeds, cash grows by [q*p] and
    the held quantity shrinks by [q], the position being deleted from the
    list when the new quantity is zero and keeping its average cost basis
    (and all its other keys) when it is not. *)
Theorem sell_outcome request timestamp portfolio :
  let t := RemovePositionRequest.ticker request in
  let q := RemovePositionRequest.quantity request in
  let p := RemovePositionRequest.price request in
  (find_position t (Portfolio.positions portfolio) = None ->
   sell_stock_body request timestamp portfolio = Raised PositionNotFound portfolio)
  /\ forall i pos,
       find_position t (Portfolio.positions portfolio) = Some (i, pos) ->
       let q0 := Position.quantity pos in
       ((q0 <? q) = true ->
        sell_stock_body request timestamp portfolio = Raised InsufficientShares portfolio)
       /\ ((q0 =? q) = true -> (q0 <? q) = false)
       /\ ((q0 <? q) = false ->
           exists answer portfolio',
             sell_stock_body request timestamp portfolio = Returned answer portfolio'
             /\ Portfolio.cash portfolio' = Portfolio.cash portfolio + q * p
             /\ if q0 - q =? 0
                then Portfolio.positions portfolio' = delete i (Portfolio.positions portfolio)
                     /\ (NoDup (Position.ticker <$> Portfolio.positions portfolio) ->
                         find_position t (Portfolio.positions portfolio') = None)
                else Portfolio.positions portfolio'
                     = <[i := Position.mk (Position.ticker pos) (q0 - q)
                               (Position.avgCostBasis pos)
                               (Position.currentPrice pos) (Position.marketValue pos)
                               (Position.unrealizedPL pos) (Position.unrealizedPLPercent pos)
                               (Position.addedAt pos)]> (Portfolio.positions portfolio)).
Proof.
  intros t q p. rewrite sell_stock_body_cases. fold t q p. split.
  - by intros ->.
  - intros i pos Hfind q0. rewrite Hfind. fold q0. split_and!.
    + by intros ->.
    + apply Binary64.eqb_not_ltb.
    + intros ->. eexists _, _. split; [done|]. simpl. split; [done|].
      destruct (q0 - q =? 0); [|done].
      rewrite delete_insert_same. split; [done|].
      intros Hnodup. by eapply find_position_delete.
Qed.

(** Selling the 4 MSFT shares held: accepted, cash grows by 4 * 300 and the
    position is deleted. *)
Lemma sell_outcome_witness :
  exists answer portfolio',
    sell_stock_body Example.sell_all_msft Example.now Example.held = Returned answer portfolio'
    /\ Portfolio.cash portfolio' = 98000 + 4 * 300
    /\ Portfolio.positions portfolio' = [Example.aapl]
    /\ find_position "MSFT" (Portfolio.positions portfolio') = None.
Proof.
  destruct (proj2 (sell_outcome Example.sell_all_msft Example.now Example.held)
              1%nat Example.msft ltac:(vm_compute; reflexivity))
    as (_ & _ & Hsell).
  destruct (Hsell ltac:(vm_compute; reflexivity)) as (answer & portfolio' & Hrun & Hcash & Hpos).
  change (Position.quantity Example.msft - RemovePositionRequest.quantity Example.sell_all_msft =? 0)
    with true in Hpos.
  destruct Hpos as [Hpos Hnone].
  exists answer, portfolio'. split_and!; [done|done|done|].
  apply Hnone, (bool_decide_unpack _). vm_compute. exact I.
Defined.

(** C3, as stated, fails on a portfolio whose cash has overflowed.  Starting
    from a new portfolio, buying 1e200 shares at 0 and selling them at 1e200
    leaves infinite cash; an order of 1e200 shares at 1e200 then costs
    exactly that cash and is accepted, but the cash left is [nan], not 0. *)
Lemma buy_exact_cash_counterexample :
  exists p1 p2 answer p3,
    run [Buy Example.buy_x_free Example.now Example.now;
         Sell Example.sell_x_dear Example.now] (new_portfolio "user_1") = inr [p1; p2]
    /\ (Portfolio.cash p2
        =? AddPositionRequest.quantity Example.buy_x_dear
           * AddPositionRequest.price Example.buy_x_dear) = true
    /\ buy_stock_body Example.buy_x_dear Example.now Example.now p2 = Returned answer p3
    /\ (Portfolio.cash p3 =? 0) = false.
Proof.
  eexists _, _, _, _. split_and!.
  - vm_compute. reflexivity.
  - vm_compute. reflexivity.
  - vm_compute. reflexivity.
  - vm_compute. reflexivity.
Qed.

(** C3 (amended).  A buy of quantity [q] at price [p] fails with
    [InsufficientFunds] exactly when [cash < q*p], and on success the new
    cash is the old cash minus [q*p]; so a buy that costs exactly the cash is
    not refused for lack of funds, and it leaves the cash at 0 when that cash
    is finite. *)
Theorem buy_funds_check request added_at timestamp portfolio :
  let q := AddPositionRequest.quantity request in
  let p := AddPositionRequest.price request in
  let cash := Portfolio.cash portfolio in
  ((cash <? q * p) = true ->
   buy_stock_body request added_at timestamp portfolio = Raised InsufficientFunds portfolio)
  /\ ((cash <? q * p) = false ->
      forall s, buy_stock_body request added_at timestamp portfolio <> Raised InsufficientFunds s)
  /\ (forall answer portfolio',
        buy_stock_body request added_at timestamp portfolio = Returned answer portfolio' ->
        Portfolio.cash portfolio' = cash - q * p
        /\ ((cash =? q * p) = true -> is_finite cash = true ->
            (Portfolio.cash portfolio' =? 0) = true))
  /\ ((cash =? q * p) = true -> (cash <? q * p) = false).
Proof.
  intros q p cash. rewrite buy_stock_body_cases. fold q p cash. split_and!.
  - by intros ->.
  - intros -> s. destruct (find_position _ _) as [[i pos]|]; [|done].
    by destruct (Position.quantity pos + q =? 0).
  - intros answer portfolio' H.
    assert (Portfolio.cash portfolio' = cash - q * p) as ->.
    { destruct (cash <? q * p); [done|].
      destruct (find_position _ _) as [[i pos]|].
      - destruct (Position.quantity pos + q =? 0); [done|]. by injection H as _ <-.
      - by injection H as _ <-. }
    split; [done|]. intros Heq Hfin. by apply Binary64.sub_eqb_zero.
  - apply Binary64.eqb_not_ltb.
Qed.

(** Spending the 98000 of cash on 980 shares at 100 leaves no cash. *)
Lemma buy_funds_check_witness :
  exists answer portfolio',
    buy_stock_body Example.buy_all_cash Example.now Example.now Example.held
    = Returned answer portfolio'
    /\ Portfolio.cash portfolio' = 98000 - 980 * 100
    /\ (Portfolio.cash portfolio' =? 0) = true.
Proof.
  eexists _, _. split; [vm_compute; reflexivity|].
  destruct (proj1 (proj2 (proj2 (buy_funds_check Example.buy_all_cash Example.now Example.now
                                   Example.held))) _ _ ltac:(vm_compute; reflexivity))
    as [Hcash Hzero].
  split; [exact Hcash|].
  apply Hzero; vm_compute; reflexivity.
Defined.

(** ** Cash stays non-negative *)

(** C4, as stated, fails when the value of an order overflows.  The three
    orders below have positive quantities and non-negative prices and are all
    accepted on a new portfolio (cash 100000); the sale yields infinite cash,
    the last purchase costs infinity, and the cash it leaves is [nan], which
    is not [>= 0]. *)
Lemma cash_nonneg_counterexample :
  exists p1 p2 p3,
    (0 <=? Portfolio.cash (new_portfolio "user_1")) = true
    /\ Forall valid_order [Buy Example.buy_x_free Example.now Example.now;
                           Sell Example.sell_x_dear Example.now;
                           Buy Example.buy_x_dear Example.now Example.now]
    /\ run [Buy Example.buy_x_free Example.now Example.now;
            Sell Example.sell_x_dear Example.now;
            Buy Example.buy_x_dear Example.now Example.now] (new_portfolio "user_1")
       = inr [p1; p2; p3]
    /\ (0 <=? Portfolio.cash p3) = false.
Proof.
  eexists _, _, _. split_and!.
  - vm_compute. reflexivity.
  - repeat constructor.
  - vm_compute. reflexivity.
  - vm_compute. reflexivity.
Qed.

(** One accepted order of finite value keeps the cash non-negative. *)
Lemma apply_cash_nonneg op portfolio answer portfolio' :
  valid_order op -> finite_value op ->
  (0 <=? Portfolio.cash portfolio) = true ->
  apply op portfolio = Returned answer portfolio' ->
  (0 <=? Portfolio.cash portfolio') = true.
Proof.
  intros [Hq Hp] Hfin Hcash. unfold finite_value in Hfin.
  pose proof (Binary64.mul_nonneg _ _ (Binary64.pos_nonneg _ Hq) Hp
                (Binary64.finite_not_nan _ Hfin)) as Hvalue.
  destruct op as [request added_at timestamp|request timestamp]; simpl in *.
  - rewrite buy_stock_body_cases.
    destruct (Portfolio.cash portfolio <? _) eqn:Hlt; [done|].
    assert ((0 <=? Portfolio.cash portfolio
                   - AddPositionRequest.quantity request * AddPositionRequest.price request)
            = true) as Hleft by by apply Binary64.sub_nonneg.
    destruct (find_position _ _) as [[i pos]|].
    + destruct (Position.quantity pos + _ =? 0); [done|]. by intros [= _ <-].
    + by intros [= _ <-].
  - rewrite sell_stock_body_cases.
    destruct (find_position _ _) as [[i pos]|]; [|done].
    destruct (Position.quantity pos <? _); [done|]. intros [= _ <-]. simpl.
    by apply Binary64.add_nonneg.
Qed.

(** C4 (amended).  From a portfolio with [cash >= 0], after each operation
    of a sequence of accepted buys and sells whose arguments satisfy
    [quantity > 0], [price >= 0] and whose value [quantity * price] is finite,
    the cash is [>= 0]. *)
Theorem cash_nonneg ops portfolio states :
  (0 <=? Portfolio.cash portfolio) = true ->
  Forall (fun op => valid_order op /\ finite_value op) ops ->
  run ops portfolio = inr states ->
  Forall (fun s => (0 <=? Portfolio.cash s) = true) states.
Proof.
  intros Hcash Hops. revert portfolio states Hcash.
  induction Hops as [|op ops [Hvalid Hfin] _ IH]; intros portfolio states Hcash; simpl.
  - intros [= <-]. constructor.
  - destruct (apply op portfolio) as [answer portfolio'|] eqn:Hop; [|done].
    pose proof (apply_cash_nonneg _ _ _ _ Hvalid Hfin Hcash Hop) as Hcash'.
    destruct (run ops portfolio') as [|states'] eqn:Hrun; [done|].
    intros [= <-]. constructor; [done|]. by eapply IH.
Qed.

(** A session of two buys and two sells: four portfolios, all with
    non-negative cash. *)
Lemma cash_nonneg_witness :
  exists states,
    run Example.session Example.held = inr states
    /\ length states = 4%nat
    /\ Forall (fun s => (0 <=? Portfolio.cash s) = true) states.
Proof.
  eexists. split; [vm_compute; reflexivity|]. split; [reflexivity|].
  apply (cash_nonneg Example.session Example.held).
  - vm_compute. reflexivity.
  - repeat constructor.
  - vm_compute. reflexivity.
Defined.

(** ** The handlers at work *)

(** The scenario of the specification, step by step: cash 98500, 96800 and
    97800; 10, 20 and 15 shares at an average cost of 150, 160 and 160. *)
Example scenario_run :
  exists s1 s2 s3,
    run Example.scenario (new_portfolio "user_1") = inr [s1; s2; s3]
    /\ Portfolio.cash s1 = 98500 /\ Portfolio.cash s2 = 96800 /\ Portfolio.cash s3 = 97800
    /\ Portfolio.positions s1 = [Position.mk "AAPL" 10 150 None None None None "t1"]
    /\ Portfolio.positions s2 = [Position.mk "AAPL" 20 160 None None None None "t1"]
    /\ Portfolio.positions s3 = [Position.mk "AAPL" 15 160 None None None None "t1"].
Proof. eexists _, _, _. split_and!; vm_compute; reflexivity. Qed.

(** A buy that brings the held quantity to zero divides by zero: the handler
    dies with [ZeroDivisionError] after the cash was changed in memory, and
    before anything is saved. *)
Example buy_to_zero_raises :
  buy_stock_body Example.sell_all_aapl_short Example.now Example.now Example.held
  = Raised ZeroDivisionError (Portfolio.set_cash 99000 Example.held).
Proof. vm_compute. reflexivity. Qed.

(** Whatever the body raises, the file is left as it was; what it returns is
    saved under the user's id. *)
Lemma handle_raised {A} (body : M A) file portfolio e s :
  load_portfolios file !! verify_token None = Some portfolio ->
  body portfolio = Raised e s ->
  handle body file = (file, inl e).
Proof. intros Hload Hbody. unfold handle. by rewrite Hload, Hbody. Qed.

Lemma handle_returned {A} (body : M A) file portfolio r portfolio' :
  load_portfolios file !! verify_token None = Some portfolio ->
  body portfolio = Returned r portfolio' ->
  handle body file
  = (Some (<[verify_token None := portfolio']> (load_portfolios file)), inr r).
Proof. intros Hload Hbody. unfold handle. by rewrite Hload, Hbody. Qed.

Lemma handle_no_portfolio {A} (body : M A) file :
  load_portfolios file !! verify_token None = None ->
  handle body file = (file, inl PortfolioNotFound).
Proof. intros Hload. unfold handle. by rewrite Hload. Qed.

(** ** Rejected orders *)

(** C5.  When a buy or a sell fails with [InsufficientFunds],
    [InsufficientShares] or [PositionNotFound], the portfolio in memory is,
    at the moment the exception is raised, exactly the one that was loaded
    (cash, positions and transactions included), and the file is left as it
    was. *)
Theorem rejected_order_changes_nothing op portfolio e s :
  apply op portfolio = Raised e s ->
  e = InsufficientFunds \/ e = InsufficientShares \/ e = PositionNotFound ->
  s = portfolio
  /\ forall file,
       load_portfolios file !! verify_token None = Some portfolio ->
       handle (apply op) file = (file, inl e).
Proof.
  intros Hop He.
  assert (s = portfolio) as ->.
  { destruct op as [request added_at timestamp|request timestamp]; simpl in Hop.
    - rewrite buy_stock_body_cases in Hop.
      destruct (Portfolio.cash portfolio <? _); [by injection Hop|].
      destruct (find_position _ _) as [[i pos]|]; [|done].
      destruct (Position.quantity pos + _ =? 0); [|done].
      injection Hop as <- _. by destruct He as [|[|]].
    - rewrite sell_stock_body_cases in Hop.
      destruct (find_position _ _) as [[i pos]|]; [|by injection Hop].
      destruct (Position.quantity pos <? _); [by injection Hop|done]. }
  split; [done|]. intros file Hload. by eapply handle_raised.
Qed.

(** Selling 5 MSFT out of 4 and buying 1000 AAPL at 200 with 98000 of cash
    are both refused, the portfolio being untouched. *)
Lemma rejected_order_changes_nothing_witness :
  sell_stock_body Example.sell_too_much Example.now Example.held
  = Raised InsufficientShares Example.held
  /\ handle (apply (Buy Example.buy_too_much Example.now Example.now))
       (Some {[ "user_1"%string := Example.held ]})
     = (Some {[ "user_1"%string := Example.held ]}, inl InsufficientFunds).
Proof.
  split; [vm_compute; reflexivity|].
  apply (rejected_order_changes_nothing
           (Buy Example.buy_too_much Example.now Example.now) Example.held
           InsufficientFunds Example.held).
  - vm_compute. reflexivity.
  - by left.
  - apply lookup_singleton_eq.
Defined.

(** C6, as stated, fails: the handlers validate nothing.  A buy of -5 shares
    at 10 on a new portfolio is accepted: it adds 50 to the cash, creates a
    position of -5 shares and logs a transaction. *)
Lemma invalid_order_counterexample :
  (AddPositionRequest.quantity Example.buy_negative <=? 0) = true
  /\ buy_stock_body Example.buy_negative Example.now Example.now (new_portfolio "user_1")
     = Returned (mk_response "Stock purchased successfully" "txn_1")
         (Portfolio.mk "user_1" 100050
            [Position.mk "AAPL" (-5) 10 None None None None Example.now]
            [Transaction.mk "txn_1" "AAPL" "buy" (-5) 10 Example.now 0]
            None None None).
Proof. split; vm_compute; reflexivity. Qed.

(** C6 (amended).  A buy or sell request is never rejected for its arguments
    (non-positive quantity or negative price included): the only HTTP errors
    of a buy and of a sell are those of the funds and shares rules, which
    apply to every request alike, and each of them is raised before any
    state mutation. *)
Theorem orders_are_not_validated op portfolio status_code detail s :
  apply op portfolio = Raised (HTTPException status_code detail) s ->
  s = portfolio
  /\ match op with
     | Buy request _ _ =>
         HTTPException status_code detail = InsufficientFunds
         /\ (Portfolio.cash portfolio
             <? AddPositionRequest.quantity request * AddPositionRequest.price request) = true
     | Sell request _ =>
         match find_position (RemovePositionRequest.ticker request)
                 (Portfolio.positions portfolio) with
         | None => HTTPException status_code detail = PositionNotFound
         | Some (_, pos) =>
             HTTPException status_code detail = InsufficientShares
             /\ (Position.quantity pos <? RemovePositionRequest.quantity request) = true
         end
     end.
Proof.
  destruct op as [request added_at timestamp|request timestamp]; simpl.
  - rewrite buy_stock_body_cases.
    destruct (Portfolio.cash portfolio <? _); [by intros [= <- <- <-]|].
    destruct (find_position _ _) as [[i pos]|]; [|done].
    by destruct (Position.quantity pos + _ =? 0).
  - rewrite sell_stock_body_cases.
    destruct (find_position _ _) as [[i pos]|]; [|by intros [= <- <- <-]].
    by destruct (Position.quantity pos <? _); [intros [= <- <- <-]|].
Qed.

(** An order with a negative quantity and a negative price, worth more than
    the cash: refused for lack of funds, as any order of that value is. *)
Lemma orders_are_not_validated_witness :
  buy_stock_body Example.buy_negative_dear Example.now Example.now Example.held
  = Raised InsufficientFunds Example.held
  /\ (Portfolio.cash Example.held <? (-1000) * (-1000)) = true.
Proof.
  split; [vm_compute; reflexivity|].
  exact (proj2 (proj2 (orders_are_not_validated
                         (Buy Example.buy_negative_dear Example.now Example.now)
                         Example.held 400 "Insufficient funds" Example.held
                         ltac:(vm_compute; reflexivity)))).
Defined.

(** ** The transaction log *)

Lemma str_inj m n : str m = str n -> m = n.
Proof.
  unfold str. intros H.
  apply (f_equal NilEmpty.uint_of_string) in H. rewrite !NilEmpty.usu in H.
  injection H as H. apply (f_equal Nat.of_uint) in H.
  by rewrite !Unsigned.of_to in H.
Qed.

Lemma txn_id_inj m n : txn_id m = txn_id n -> m = n.
Proof. unfold txn_id. intros [= H]. by apply str_inj. Qed.

(** An accepted operation appends its transaction and answers with its id. *)
Lemma apply_appends op portfolio answer portfolio' :
  apply op portfolio = Returned answer portfolio' ->
  Portfolio.transactions portfolio'
  = Portfolio.transactions portfolio ++ [transaction_of op portfolio]
  /\ transactionId answer = Transaction.id (transaction_of op portfolio).
Proof.
  destruct op as [request added_at timestamp|request timestamp]; simpl.
  - rewrite buy_stock_body_cases.
    destruct (Portfolio.cash portfolio <? _); [done|].
    destruct (find_position _ _) as [[i pos]|].
    + destruct (Position.quantity pos + _ =? 0); [done|]. by intros [= <- <-].
    + by intros [= <- <-].
  - rewrite sell_stock_body_cases.
    destruct (find_position _ _) as [[i pos]|]; [|done].
    destruct (Position.quantity pos <? _); [done|]. by intros [= <- <-].
Qed.

Lemma transaction_of_id op portfolio :
  Transaction.id (transaction_of op portfolio)
  = txn_id (length (Portfolio.transactions portfolio) + 1).
Proof. by destruct op. Qed.

Lemma sequential_snoc transactions txn :
  sequential transactions ->
  Transaction.id txn = txn_id (length transactions + 1) ->
  sequential (transactions ++ [txn]).
Proof.
  unfold sequential. intros Hseq Hid.
  rewrite fmap_app, length_app, seq_app, fmap_app, Hseq. simpl.
  by rewrite Hid, Nat.add_1_r.
Qed.

Lemma sequential_NoDup transactions :
  sequential transactions -> NoDup (Transaction.id <$> transactions).
Proof.
  unfold sequential. intros ->. apply NoDup_fmap_2; [|apply NoDup_seq].
  intros m n. apply txn_id_inj.
Qed.

(** The log along a sequence of accepted operations. *)
Lemma run_log ops portfolio states :
  sequential (Portfolio.transactions portfolio) ->
  run ops portfolio = inr states ->
  forall k s, states !! k = Some s ->
    (exists new, Portfolio.transactions s = Portfolio.transactions portfolio ++ new
                 /\ length new = S k)
    /\ Transaction.id <$> Portfolio.transactions s
       = txn_id <$> seq 1 (length (Portfolio.transactions portfolio) + S k)
    /\ NoDup (Transaction.id <$> Portfolio.transactions s).
Proof.
  revert portfolio states.
  induction ops as [|op ops IH]; intros portfolio states Hseq; simpl.
  - by intros [= <-] k s.
  - destruct (apply op portfolio) as [answer portfolio'|] eqn:Hop; [|done].
    destruct (run ops portfolio') as [|states'] eqn:Hrun; [done|].
    intros [= <-] k s Hk.
    apply apply_appends in Hop as [Hlog _].
    assert (sequential (Portfolio.transactions portfolio')) as Hseq'.
    { rewrite Hlog. apply sequential_snoc; [done|]. apply transaction_of_id. }
    destruct k as [|k]; simpl in Hk.
    + injection Hk as <-. split_and!.
      * by exists [transaction_of op portfolio].
      * rewrite Hseq'. by rewrite Hlog, length_app.
      * by apply sequential_NoDup.
    + destruct (IH portfolio' states' Hseq' Hrun k s Hk) as ((new & Hnew & Hlen) & Hids & Hnodup).
      split_and!; [|rewrite Hids; f_equal; f_equal; rewrite Hlog, length_app; simpl; lia|done].
      exists (transaction_of op portfolio :: new).
      rewrite Hnew, Hlog, <- app_assoc. simpl. by rewrite Hlen.
Qed.

(** C7.  Every accepted buy or sell appends exactly one transaction, whose
    id is [txn_<n>] with [n] one more than the number of transactions already
    in the log, the earlier transactions being kept as they were.  Hence, on
    a log that reads [txn_1], [txn_2], ... (the empty log of a new portfolio
    in particular), after the [k+1]-th operation of any sequence of accepted
    buys and sells the log is the initial one followed by [k+1] transactions,
    its ids still read [txn_1], [txn_2], ... in order, and they are pairwise
    distinct. *)
Theorem transaction_ids_sequential :
  (forall op portfolio answer portfolio',
     apply op portfolio = Returned answer portfolio' ->
     exists txn,
       Portfolio.transactions portfolio' = Portfolio.transactions portfolio ++ [txn]
       /\ Transaction.id txn = txn_id (length (Portfolio.transactions portfolio) + 1)
       /\ transactionId answer = Transaction.id txn)
  /\ (forall ops portfolio states,
        sequential (Portfolio.transactions portfolio) ->
        run ops portfolio = inr states ->
        forall k s, states !! k = Some s ->
          (exists new, Portfolio.transactions s = Portfolio.transactions portfolio ++ new
                       /\ length new = S k)
          /\ Transaction.id <$> Portfolio.transactions s
             = txn_id <$> seq 1 (length (Portfolio.transactions portfolio) + S k)
          /\ NoDup (Transaction.id <$> Portfolio.transactions s))
  /\ (forall user_id ops states,
        run ops (new_portfolio user_id) = inr states ->
        forall k s, states !! k = Some s ->
          Transaction.id <$> Portfolio.transactions s = txn_id <$> seq 1 (S k)
          /\ NoDup (Transaction.id <$> Portfolio.transactions s)).
Proof.
  split_and!.
  - intros op portfolio answer portfolio' [Hlog Hanswer]%apply_appends.
    exists (transaction_of op portfolio). by rewrite transaction_of_id in *.
  - apply run_log.
  - intros user_id ops states Hstates k s Hk.
    by destruct (run_log ops (new_portfolio user_id) states eq_refl Hstates k s Hk)
      as (_ & ? & ?).
Qed.

(** A session of four operations on a portfolio whose log reads [txn_1],
    [txn_2]: afterwards it reads [txn_1] to [txn_6]. *)
Lemma transaction_ids_sequential_witness :
  exists states s,
    run Example.session Example.held = inr states
    /\ states !! 3%nat = Some s
    /\ Transaction.id <$> Portfolio.transactions s
       = ["txn_1"; "txn_2"; "txn_3"; "txn_4"; "txn_5"; "txn_6"]%string.
Proof.
  eexists _, _. split; [vm_compute; reflexivity|]. split; [reflexivity|].
  exact (proj1 (proj2 (proj1 (proj2 transaction_ids_sequential)
                         Example.session Example.held _
                         ltac:(reflexivity) ltac:(vm_compute; reflexivity)
                         3%nat _ ltac:(reflexivity)))).
Defined.

(** C10.  The transaction an accepted buy or sell appends has [fees] equal
    to [0.0]; the requests carry a ticker, a quantity and a price and nothing
    the fees could be read from. *)
Theorem fees_are_zero op portfolio answer portfolio' :
  apply op portfolio = Returned answer portfolio' ->
  exists txn,
    Portfolio.transactions portfolio' = Portfolio.transactions portfolio ++ [txn]
    /\ Transaction.fees txn = 0.
Proof.
  intros [Hlog _]%apply_appends. exists (transaction_of op portfolio).
  split; [done|]. by destruct op.
Qed.

(** The sale of 4 AAPL is logged as [txn_3], without fees. *)
Lemma fees_are_zero_witness :
  exists answer portfolio' txn,
    sell_stock_body Example.sell_aapl Example.now Example.held = Returned answer portfolio'
    /\ Portfolio.transactions portfolio' = Portfolio.transactions Example.held ++ [txn]
    /\ Transaction.fees txn = 0.
Proof.
  eexists _, _. 
  destruct (fees_are_zero (Sell Example.sell_aapl Example.now) Example.held _ _
              ltac:(vm_compute; reflexivity)) as (txn & Hlog & Hfees).
  exists txn. split; [vm_compute; reflexivity|]. by split.
Defined.

(** ** Valuation *)

Section ValuationFacts.
Variable price : string -> float.

(** The guard [basis > 0] keeps the division from raising. *)
Lemma percent_total pl basis :
  percent pl basis = inr (if 0 <? basis then pl / basis * 100 else 0).
Proof.
  unfold percent, truediv. destruct (0 <? basis) eqn:Hpos; [|done].
  by rewrite (Binary64.pos_not_zero _ Hpos).
Qed.

Lemma value_position_total pos :
  value_position price pos
  = inr (Spec.valued price pos, Spec.marketValue price pos, Spec.costBasis pos).
Proof. unfold value_position. by rewrite percent_total. Qed.

Lemma value_positions_total positions total_market_value total_cost_basis :
  value_positions price positions total_market_value total_cost_basis
  = inr (Spec.valued price <$> positions,
         fold_left (fun acc pos => acc + Spec.marketValue price pos) positions total_market_value,
         fold_left (fun acc pos => acc + Spec.costBasis pos) positions total_cost_basis).
Proof.
  revert total_market_value total_cost_basis.
  induction positions as [|pos positions IH]; intros tmv tcb; simpl; [done|].
  rewrite value_position_total. simpl. by rewrite IH.
Qed.

Lemma calculate_portfolio_metrics_total portfolio :
  calculate_portfolio_metrics price portfolio
  = inr (Portfolio.mk (Portfolio.userId portfolio) (Portfolio.cash portfolio)
           (Spec.valued price <$> Portfolio.positions portfolio)
           (Portfolio.transactions portfolio)
           (Some (Spec.totalMarketValue price portfolio))
           (Some (Spec.totalPL price portfolio))
           (Some (Spec.totalPLPercent price portfolio))).
Proof.
  unfold calculate_portfolio_metrics. rewrite value_positions_total. simpl.
  by rewrite percent_total.
Qed.

(** C8.  For every price feed, the valuation of a portfolio never raises and
    sets, on each position, [currentPrice] to the price of its ticker,
    [marketValue] to [quantity * currentPrice], [unrealizedPL] to
    [marketValue - quantity * avgCostBasis] and [unrealizedPLPercent] to
    [unrealizedPL / (quantity * avgCostBasis) * 100] when that cost basis is
    strictly positive and to 0 otherwise; on the portfolio, with
    [totalCostBasis] the cash plus the cost bases, [totalValue] to the cash
    plus the market values, [totalPL] to [totalValue - totalCostBasis] and
    [totalPLPercent] to [totalPL / totalCostBasis * 100] when
    [totalCostBasis] is strictly positive and to 0 otherwise.  A position
    whose average cost basis is zero gets the percentage 0. *)
Theorem valuation_formulas portfolio :
  calculate_portfolio_metrics price portfolio
  = inr (Portfolio.mk (Portfolio.userId portfolio) (Portfolio.cash portfolio)
           (Spec.valued price <$> Portfolio.positions portfolio)
           (Portfolio.transactions portfolio)
           (Some (Spec.totalMarketValue price portfolio))
           (Some (Spec.totalPL price portfolio))
           (Some (Spec.totalPLPercent price portfolio)))
  /\ forall pos,
       (Position.avgCostBasis pos =? 0) = true ->
       Position.unrealizedPLPercent (Spec.valued price pos) = Some 0.
Proof.
  split; [apply calculate_portfolio_metrics_total|].
  - intros pos Hzero. simpl. unfold Spec.unrealizedPLPercent, Spec.costBasis.
    by rewrite Binary64.mul_zero_not_pos.
Qed.

(** C9.  The performance computation runs the valuation and reports: the
    initial value (the starting cash 100000.0, which the code supplies
    itself), as [currentValue] the valuation's [totalValue], as [totalReturn]
    [(totalValue - initialValue) / initialValue * 100], the valuation's
    [totalPL] and [totalPLPercent], the cash, and as [investedValue]
    [totalValue - cash].  It never raises. *)
Theorem performance_report portfolio :
  exists valued totalValue totalPL totalPLPercent,
    calculate_portfolio_metrics price portfolio = inr valued
    /\ Portfolio.totalValue valued = Some totalValue
    /\ Portfolio.totalPL valued = Some totalPL
    /\ Portfolio.totalPLPercent valued = Some totalPLPercent
    /\ performance_of price portfolio
       = inr (Performance.mk 100000 totalValue
                ((totalValue - 100000) / 100000 * 100)
                totalPL totalPLPercent (Portfolio.cash portfolio)
                (totalValue - Portfolio.cash portfolio)).
Proof.
  eexists _, _, _, _. split; [apply calculate_portfolio_metrics_total|].
  split_and!; [done..|].
  unfold performance_of. by rewrite calculate_portfolio_metrics_total.
Qed.
End ValuationFacts.

(** The end-to-end scenario of the specification, valued at AAPL = 180:
    market value 2700, unrealized P&L 300, that is 12.5 %; shares that cost
    nothing get the percentage 0. *)
Lemma valuation_formulas_witness :
  Spec.valued Example.quote (Position.mk "AAPL" 15 160 None None None None Example.now)
  = Position.mk "AAPL" 15 160 (Some 180) (Some 2700) (Some 300) (Some 12.5) Example.now
  /\ Position.unrealizedPLPercent (Spec.valued Example.quote Example.free_shares) = Some 0.
Proof.
  split; [vm_compute; reflexivity|].
  apply (proj2 (valuation_formulas Example.quote Example.held)).
  vm_compute. reflexivity.
Defined.

(** * Further properties *)

(** ** More binary64 arithmetic *)

Module Binary64Order.

Lemma ltb_zero_spec x : (0 <? x) = SFpos (Prim2SF x).
Proof. rewrite FloatAxioms.ltb_spec, Binary64.Prim2SF_zero. by destruct (Prim2SF x) as [[]|[]| |[]]. Qed.

Lemma shr_1_div2 mrs : (0 <= shr_m mrs)%Z -> shr_m (shr_1 mrs) = (shr_m mrs / 2)%Z.
Proof.
  destruct mrs as [[|[p|p|]|p] r s]; cbn [shr_1 shr_m]; try lia; intros _.
  - done.
  - apply Z.div_unique with 1%Z; lia.
  - apply Z.div_unique with 0%Z; lia.
  - done.
Qed.

Lemma shr_1_keeps_nonneg mrs : (0 <= shr_m mrs)%Z -> (0 <= shr_m (shr_1 mrs))%Z.
Proof. destruct mrs as [[|[]|[]] r s]; simpl; lia. Qed.

Lemma iter_shr_1 n mrs :
  (0 <= shr_m mrs)%Z ->
  (0 <= shr_m (SpecFloat.iter_pos shr_1 n mrs))%Z
  /\ shr_m (SpecFloat.iter_pos shr_1 n mrs) = (shr_m mrs / 2 ^ Z.pos n)%Z.
Proof.
  revert mrs. induction n as [n IH|n IH|]; intros mrs Hm; simpl SpecFloat.iter_pos.
  - pose proof (shr_1_keeps_nonneg _ Hm) as H1. pose proof (shr_1_div2 _ Hm) as E1.
    destruct (IH _ H1) as [H2 E2]. destruct (IH _ H2) as [H3 E3].
    split; [done|]. pose proof (Z.pow_pos_nonneg 2 (Z.pos n)) as Hpow.
    rewrite E3, E2, E1, !Z.div_div by lia. f_equal.
    rewrite Pos2Z.inj_xI, Z.pow_add_r, Z.pow_twice_r by lia. lia.
  - destruct (IH _ Hm) as [H2 E2]. destruct (IH _ H2) as [H3 E3].
    split; [done|]. pose proof (Z.pow_pos_nonneg 2 (Z.pos n)) as Hpow.
    rewrite E3, E2, !Z.div_div by lia. f_equal.
    change (Z.pos n~0) with (2 * Z.pos n)%Z. by rewrite Z.pow_twice_r.
  - split; [by apply shr_1_keeps_nonneg|]. by rewrite shr_1_div2.
Qed.

Lemma digits2_pos_lower m : (2 ^ (Z.pos (digits2_pos m) - 1) <= Z.pos m)%Z.
Proof.
  induction m as [m IH|m IH|]; simpl digits2_pos; [| |simpl; lia].
  all: rewrite Pos2Z.inj_succ; set (d := Z.pos (digits2_pos m)) in *.
  all: replace (Z.succ d - 1)%Z with (Z.succ (d - 1)) by lia.
  all: rewrite Z.pow_succ_r by lia.
  all: lia.
Qed.

(** Rounding a positive mantissa to the format, at an exponent that is not
    below the smallest one, does not lose it. *)
Lemma shr_fexp_pos m e l :
  (0 < m)%Z -> (emin <= e)%Z ->
  (0 < shr_m (shr_fexp prec emax m e l).1)%Z /\ (emin <= (shr_fexp prec emax m e l).2)%Z.
Proof.
  intros Hm He. unfold shr_fexp, shr.
  assert (shr_m (shr_record_of_loc m l) = m) as Hrec by by destruct l as [|[]].
  destruct (fexp prec emax (Zdigits2 m + e) - e)%Z as [|n|n] eqn:Hn; simpl;
    [rewrite Hrec; lia| |rewrite Hrec; lia].
  destruct (iter_shr_1 n (shr_record_of_loc m l)) as [_ ->]; [lia|].
  rewrite Hrec. split; [|lia].
  destruct m as [|p|p]; try lia. simpl Zdigits2 in Hn.
  unfold fexp, emin, prec, emax in *.
  assert (Z.pos n = Z.pos (digits2_pos p) - 53)%Z as -> by lia.
  pose proof (digits2_pos_lower p) as Hlow.
  apply Z.lt_le_trans with (2 ^ 52)%Z; [done|].
  apply Z.div_le_lower_bound; [apply Z.pow_pos_nonneg; lia|].
  rewrite <- Z.pow_add_r by lia.
  by replace (Z.pos (digits2_pos p) - 53 + 52)%Z with (Z.pos (digits2_pos p) - 1)%Z by lia.
Qed.

Lemma round_nearest_even_pos m l : (0 < m)%Z -> (0 < round_nearest_even m l)%Z.
Proof. destruct l as [|[]]; simpl; try destruct (Z.even m); lia. Qed.

Lemma binary_round_aux_pos m e l :
  (0 < m)%Z -> (emin <= e)%Z -> SFpos (binary_round_aux prec emax false m e l) = true.
Proof.
  intros Hm He. unfold binary_round_aux.
  destruct (shr_fexp_pos m e l Hm He) as [H1 He1].
  destruct (shr_fexp prec emax m e l) as [mrs' e']. simpl in H1, He1.
  destruct (shr_fexp_pos _ e' loc_Exact
              (round_nearest_even_pos _ (loc_of_shr_record mrs') H1) He1) as [H2 _].
  destruct (shr_fexp prec emax _ e' loc_Exact) as [mrs'' e'']. simpl in H2.
  destruct (shr_m mrs''); [lia| |lia]. by destruct (Z.leb _ _).
Qed.

Lemma binary_round_pos m e :
  (emin <= e)%Z -> SFpos (binary_round prec emax false m e) = true.
Proof.
  intros He. unfold binary_round, shl_align.
  destruct (_ - e)%Z eqn:Hd; apply binary_round_aux_pos; try done.
  unfold fexp. lia.
Qed.

Lemma bounded_emin m e : bounded prec emax m e = true -> (emin <= e)%Z.
Proof.
  unfold bounded, canonical_mantissa, fexp. intros [H _]%andb_prop.
  apply Z.eqb_eq in H. lia.
Qed.

(** Adding a positive number to a non-negative one gives a positive one. *)
Lemma add_pos x y : (0 <=? x) = true -> (0 <? y) = true -> (0 <? x + y) = true.
Proof.
  rewrite Binary64.leb_zero_spec, !ltb_zero_spec, add_spec.
  pose proof (Prim2SF_valid x) as Vx. pose proof (Prim2SF_valid y) as Vy.
  destruct (Prim2SF x) as [[]|[]| |[] mx ex], (Prim2SF y) as [[]|[]| |[] my ey];
    try done; intros _ _.
  unfold SF64add, SFadd, cond_Zopp. simpl Z.add. unfold binary_normalize.
  apply binary_round_pos. apply bounded_emin in Vx, Vy. lia.
Qed.

Lemma nonneg_nonzero_pos x : (0 <=? x) = true -> (x =? 0) = false -> (0 <? x) = true.
Proof.
  rewrite Binary64.leb_zero_spec, ltb_zero_spec, FloatAxioms.eqb_spec, Binary64.Prim2SF_zero.
  by destruct (Prim2SF x) as [[]|[]| |[]].
Qed.

Lemma finite_eqb_refl x : is_finite x = true -> (x =? x) = true.
Proof.
  intros Hfin%Binary64.finite_not_nan. unfold is_nan in Hfin. by destruct (x =? x).
Qed.

(** [x - x] is [+0.0] for finite [x]. *)
Lemma sub_diag x : is_finite x = true -> x - x = 0.
Proof.
  rewrite Binary64.is_finite_spec. intros Hfin. apply Prim2SF_inj.
  rewrite sub_spec, Binary64.Prim2SF_zero.
  destruct (Prim2SF x) as [[]|[]| |s m e]; try done.
  unfold SF64sub, SFsub. by rewrite Z.min_id, Binary64.shl_align_same, Z.sub_diag.
Qed.

(** [0.0 / x] is [+0.0] for positive [x]. *)
Lemma zero_div_pos x : (0 <? x) = true -> 0 / x = 0.
Proof.
  rewrite ltb_zero_spec. intros Hpos. apply Prim2SF_inj.
  rewrite div_spec, Binary64.Prim2SF_zero. by destruct (Prim2SF x) as [[]|[]| |[]].
Qed.

(** A finite quantity of shares priced at [0.0] is worth zero. *)
Lemma mul_zero_finite x : is_finite x = true -> (x * 0 =? 0) = true.
Proof.
  rewrite Binary64.is_finite_spec, FloatAxioms.eqb_spec, mul_spec, Binary64.Prim2SF_zero.
  by destruct (Prim2SF x) as [[]|[]| |[]].
Qed.
End Binary64Order.

(** ** Invariants of the positions *)

(** The positions after an accepted operation. *)
Lemma apply_positions op portfolio answer portfolio' :
  apply op portfolio = Returned answer portfolio' ->
  match op with
  | Buy order added_at _ =>
      match find_position (AddPositionRequest.ticker order) (Portfolio.positions portfolio) with
      | Some (i, pos) =>
          Portfolio.positions portfolio'
          = <[i := bought order pos]> (Portfolio.positions portfolio)
      | None =>
          Portfolio.positions portfolio'
          = Portfolio.positions portfolio ++
              [Position.mk (AddPositionRequest.ticker order)
                 (AddPositionRequest.quantity order) (AddPositionRequest.price order)
                 None None None None added_at]
      end
  | Sell order _ =>
      exists i pos,
        find_position (RemovePositionRequest.ticker order) (Portfolio.positions portfolio)
        = Some (i, pos)
        /\ (Position.quantity pos <? RemovePositionRequest.quantity order) = false
        /\ ((Position.quantity pos - RemovePositionRequest.quantity order =? 0) = true
            /\ Portfolio.positions portfolio' = delete i (Portfolio.positions portfolio)
            \/ (Position.quantity pos - RemovePositionRequest.quantity order =? 0) = false
               /\ Portfolio.positions portfolio'
                  = <[i := sold order pos]> (Portfolio.positions portfolio))
  end.
Proof.
  destruct op as [order added_at timestamp|order timestamp]; simpl.
  - rewrite buy_stock_body_cases.
    destruct (Portfolio.cash portfolio <? _); [done|].
    destruct (find_position _ _) as [[i pos]|].
    + destruct (Position.quantity pos + _ =? 0); [done|]. by intros [= _ <-].
    + by intros [= _ <-].
  - rewrite sell_stock_body_cases.
    destruct (find_position _ _) as [[i pos]|]; [|done].
    destruct (Position.quantity pos <? _) eqn:Hlt; [done|]. intros [= _ <-].
    exists i, pos. split_and!; [done..|]. simpl.
    destruct (_ =? 0); [left|right]; split; try done. apply delete_insert_same.
Qed.

Lemma apply_unique_tickers op portfolio answer portfolio' :
  apply op portfolio = Returned answer portfolio' ->
  NoDup (Position.ticker <$> Portfolio.positions portfolio) ->
  NoDup (Position.ticker <$> Portfolio.positions portfolio').
Proof.
  intros Hop%apply_positions Hnodup.
  destruct op as [order added_at timestamp|order timestamp].
  - destruct (find_position _ _) as [[i pos]|] eqn:Hfind.
    + rewrite Hop. apply find_position_Some in Hfind as [Hi _].
      rewrite list_fmap_insert, list_insert_id; [done|].
      by rewrite list_lookup_fmap, Hi.
    + rewrite Hop, fmap_app. apply NoDup_app. split_and!; [done| |apply NoDup_singleton].
      intros t (pos & -> & Hpos)%list_elem_of_fmap Ht%list_elem_of_singleton.
      apply find_position_None in Hfind.
      by eapply (proj1 (Forall_forall _ _) Hfind).
  - destruct Hop as (i & pos & Hfind & _ & [[_ ->]|[_ ->]]).
    + rewrite list_fmap_delete. eapply sublist_NoDup; [done|apply sublist_delete].
    + apply find_position_Some in Hfind as [Hi _].
      rewrite list_fmap_insert, list_insert_id; [done|].
      by rewrite list_lookup_fmap, Hi.
Qed.

Lemma apply_positive_quantities op portfolio answer portfolio' :
  finite_order op ->
  positive_quantities portfolio ->
  apply op portfolio = Returned answer portfolio' ->
  positive_quantities portfolio'.
Proof.
  intros [[Hq _] Hfin] Hall Hop%apply_positions. unfold positive_quantities in *.
  destruct op as [order added_at timestamp|order timestamp]; simpl in *.
  - destruct (find_position _ _) as [[i pos]|] eqn:Hfind.
    + rewrite Hop. apply find_position_Some in Hfind as [Hi _].
      apply Forall_insert; [done|]. simpl. apply Binary64Order.add_pos; [|done].
      apply Binary64.pos_nonneg. by eapply (Forall_lookup_1 _ _ _ _ Hall).
    + rewrite Hop. apply Forall_app. split; [done|]. by repeat constructor.
  - destruct Hop as (i & pos & Hfind & Hlt & [[_ ->]|[Hleft ->]]);
      [by apply Forall_delete|].
    apply find_position_Some in Hfind as [Hi _].
    apply Forall_insert; [done|]. simpl.
    apply Binary64Order.nonneg_nonzero_pos; [|done].
    apply Binary64.sub_nonneg; [|by apply Binary64.pos_nonneg|done..].
    apply Binary64.pos_nonneg. by eapply (Forall_lookup_1 _ _ _ _ Hall).
Qed.

(** An invariant of single accepted operations holds after each operation of
    a run. *)
Lemma run_invariant (I : Portfolio.t -> Prop) (ok : operation -> Prop) ops portfolio states :
  (forall op p answer p', ok op -> I p -> apply op p = Returned answer p' -> I p') ->
  Forall ok ops -> I portfolio ->
  run ops portfolio = inr states ->
  Forall I states.
Proof.
  intros Hstep Hops. revert portfolio states.
  induction Hops as [|op ops Hop _ IH]; intros portfolio states HI; simpl.
  - intros [= <-]. constructor.
  - destruct (apply op portfolio) as [answer portfolio'|] eqn:Happly; [|done].
    destruct (run ops portfolio') as [|states'] eqn:Hrun; [done|].
    intros [= <-]. assert (I portfolio') by eauto. constructor; [done|]. by eapply IH.
Qed.

(** X1.  At most one position per ticker: along any sequence of accepted
    buys and sells (whatever their quantities and prices) on a portfolio whose
    positions have pairwise distinct tickers, the positions keep pairwise
    distinct tickers after each operation. *)
Theorem unique_tickers_kept ops portfolio states :
  NoDup (Position.ticker <$> Portfolio.positions portfolio) ->
  run ops portfolio = inr states ->
  Forall (fun s => NoDup (Position.ticker <$> Portfolio.positions s)) states.
Proof.
  intros Hnodup Hrun.
  apply (run_invariant _ (fun _ => True) ops portfolio); [|by apply Forall_true|done..].
  intros op p answer p' _ Hp Hop. by eapply apply_unique_tickers.
Qed.

Lemma unique_tickers_kept_witness :
  exists states,
    run Example.session Example.held = inr states
    /\ length states = 4%nat
    /\ Forall (fun s => NoDup (Position.ticker <$> Portfolio.positions s)) states.
Proof.
  eexists. split; [vm_compute; reflexivity|]. split; [reflexivity|].
  apply (unique_tickers_kept Example.session Example.held).
  - apply (bool_decide_unpack _). vm_compute. exact I.
  - vm_compute. reflexivity.
Defined.

(** X2.  Share counts stay positive: on a portfolio whose positions all hold
    a positive quantity, after each operation of a sequence of accepted
    orders of positive finite quantity every position still holds a positive
    quantity (a position sold down to zero is deleted, an oversized sell is
    refused). *)
Theorem quantities_stay_positive ops portfolio states :
  positive_quantities portfolio ->
  Forall finite_order ops ->
  run ops portfolio = inr states ->
  Forall positive_quantities states.
Proof.
  intros Hpos Hops Hrun.
  apply (run_invariant _ finite_order ops portfolio); [|done..].
  intros op p answer p' Hop Hp Happly. by eapply apply_positive_quantities.
Qed.

Lemma quantities_stay_positive_witness :
  exists states,
    run Example.session Example.held = inr states
    /\ length states = 4%nat
    /\ Forall positive_quantities states.
Proof.
  eexists. split; [vm_compute; reflexivity|]. split; [reflexivity|].
  apply (quantities_stay_positive Example.session Example.held).
  - repeat constructor.
  - repeat constructor.
  - vm_compute. reflexivity.
Defined.

(** X3.  An order of positive quantity on a portfolio whose positions all
    hold a positive quantity never crashes: it is accepted, or refused with
    [InsufficientFunds], [InsufficientShares] or [PositionNotFound] and the
    portfolio untouched; the division of the average cost is never by
    zero. *)
Theorem positive_orders_never_crash op portfolio :
  (0 <? op_quantity op) = true ->
  positive_quantities portfolio ->
  (exists answer portfolio', apply op portfolio = Returned answer portfolio')
  \/ exists e,
       apply op portfolio = Raised e portfolio
       /\ (e = InsufficientFunds \/ e = InsufficientShares \/ e = PositionNotFound).
Proof.
  intros Hq Hall. destruct op as [order added_at timestamp|order timestamp]; simpl in *.
  - rewrite buy_stock_body_cases.
    destruct (Portfolio.cash portfolio <? _); [right; eauto|].
    destruct (find_position _ _) as [[i pos]|] eqn:Hfind; [|left; eauto].
    apply find_position_Some in Hfind as [Hi _].
    assert ((0 <? Position.quantity pos) = true) as Hq0
      by by eapply (Forall_lookup_1 _ _ _ _ Hall).
    rewrite (Binary64.pos_not_zero _
               (Binary64Order.add_pos _ _ (Binary64.pos_nonneg _ Hq0) Hq)).
    left; eauto.
  - rewrite sell_stock_body_cases.
    destruct (find_position _ _) as [[i pos]|]; [|right; eauto 6].
    destruct (Position.quantity pos <? _); [right; eauto 6|left; eauto].
Qed.

Lemma positive_orders_never_crash_witness :
  (exists answer portfolio',
     apply (Buy Example.buy_aapl Example.now Example.now) Example.held
     = Returned answer portfolio')
  \/ exists e,
       apply (Buy Example.buy_aapl Example.now Example.now) Example.held
       = Raised e Example.held
       /\ (e = InsufficientFunds \/ e = InsufficientShares \/ e = PositionNotFound).
Proof.
  apply (positive_orders_never_crash (Buy Example.buy_aapl Example.now Example.now)
           Example.held).
  - vm_compute. reflexivity.
  - repeat constructor.
Defined.

(** ** The valuation and the ledger *)

Lemma fold_left_fmap {A B C} (f : A -> C -> A) (g : B -> C) (l : list B) (a : A) :
  fold_left f (g <$> l) a = fold_left (fun acc x => f acc (g x)) l a.
Proof. revert a. induction l as [|x l IH]; intros a; simpl; [done|]. apply IH. Qed.

Lemma fold_left_agree {A B} (f g : A -> B -> A) (l : list B) (a : A) :
  Forall (fun x => forall acc, f acc x = g acc x) l ->
  fold_left f l a = fold_left g l a.
Proof.
  intros Hall. revert a. induction Hall as [|x l Hx _ IH]; intros a; simpl; [done|].
  by rewrite Hx, IH.
Qed.

(** X4.  The valuation reads the ledger only and leaves it as it is: stale
    derived keys ([currentPrice], [totalValue], ...) do not influence the
    result, the valued portfolio has the ledger of the portfolio it was
    computed from, and valuing it again at the same prices changes
    nothing. *)
Theorem valuation_reads_ledger_only (price : string -> float) (portfolio : Portfolio.t) :
  calculate_portfolio_metrics price (ledger_of portfolio)
  = calculate_portfolio_metrics price portfolio
  /\ exists valued,
       calculate_portfolio_metrics price portfolio = inr valued
       /\ ledger_of valued = ledger_of portfolio
       /\ calculate_portfolio_metrics price valued = inr valued.
Proof.
  assert (forall l : list Position.t, Spec.valued price <$> (unvalued <$> l)
                                      = Spec.valued price <$> l) as Hvalued_unvalued.
  { intros l. rewrite <- list_fmap_compose. by apply list_fmap_ext. }
  assert (forall l : list Position.t, Spec.valued price <$> (Spec.valued price <$> l)
                                      = Spec.valued price <$> l) as Hvalued_twice.
  { intros l. rewrite <- list_fmap_compose. by apply list_fmap_ext. }
  assert (forall l : list Position.t, unvalued <$> (Spec.valued price <$> l)
                                      = unvalued <$> l) as Hunvalued.
  { intros l. rewrite <- list_fmap_compose. by apply list_fmap_ext. }
  rewrite !calculate_portfolio_metrics_total. split.
  - unfold Spec.totalPLPercent, Spec.totalPL, Spec.totalMarketValue, Spec.totalCostBasis.
    simpl. by rewrite Hvalued_unvalued, !fold_left_fmap.
  - eexists. split; [done|]. split.
    + unfold ledger_of. simpl. by rewrite Hunvalued.
    + rewrite calculate_portfolio_metrics_total.
      unfold Spec.totalPLPercent, Spec.totalPL, Spec.totalMarketValue, Spec.totalCostBasis.
      simpl. by rewrite Hvalued_twice, !fold_left_fmap.
Qed.

(** The valuation of a portfolio held at cost. *)
Lemma valued_at_cost (price : string -> float) pos :
  price (Position.ticker pos) = Position.avgCostBasis pos ->
  is_finite (Position.quantity pos * Position.avgCostBasis pos) = true ->
  Position.marketValue (Spec.valued price pos) = Some (Spec.costBasis pos)
  /\ Position.unrealizedPL (Spec.valued price pos) = Some 0
  /\ Position.unrealizedPLPercent (Spec.valued price pos) = Some 0.
Proof.
  intros Hprice Hfin. simpl.
  unfold Spec.unrealizedPLPercent, Spec.unrealizedPL, Spec.marketValue, Spec.costBasis.
  rewrite Hprice, Binary64Order.sub_diag by done. split_and!; [done..|].
  destruct (0 <? _) eqn:Hpos; [|done]. by rewrite Binary64Order.zero_div_pos.
Qed.

(** X5.  Valued at cost, a portfolio shows no profit and no loss: when the
    price of every position is its average cost basis and no cost basis
    overflows, the valuation gives each position the market value of its
    cost basis, [unrealizedPL] 0 and [unrealizedPLPercent] 0, and gives the
    portfolio [totalPL] 0 and [totalPLPercent] 0.  A portfolio without
    positions and with finite cash (a new one) is the simplest case:
    [totalValue] is then the cash. *)
Theorem valuation_at_cost (price : string -> float) (portfolio : Portfolio.t) :
  Forall (fun pos => price (Position.ticker pos) = Position.avgCostBasis pos
                     /\ is_finite (Position.quantity pos * Position.avgCostBasis pos) = true)
         (Portfolio.positions portfolio) ->
  is_finite (Spec.totalCostBasis portfolio) = true ->
  exists valued,
    calculate_portfolio_metrics price portfolio = inr valued
    /\ Portfolio.totalValue valued = Some (Spec.totalCostBasis portfolio)
    /\ Portfolio.totalPL valued = Some 0
    /\ Portfolio.totalPLPercent valued = Some 0
    /\ Forall (fun pos => Position.marketValue pos
                          = Some (Position.quantity pos * Position.avgCostBasis pos)
                          /\ Position.unrealizedPL pos = Some 0
                          /\ Position.unrealizedPLPercent pos = Some 0)
              (Portfolio.positions valued)
    /\ (Portfolio.positions portfolio = [] ->
        Portfolio.totalValue valued = Some (Portfolio.cash portfolio)).
Proof.
  intros Hcost Hfin. rewrite calculate_portfolio_metrics_total. eexists. split; [done|].
  assert (Spec.totalMarketValue price portfolio = Spec.totalCostBasis portfolio) as Htotal.
  { unfold Spec.totalMarketValue, Spec.totalCostBasis. apply fold_left_agree.
    eapply Forall_impl; [done|]. intros pos [Hprice _] acc. simpl.
    unfold Spec.marketValue, Spec.costBasis. by rewrite Hprice. }
  simpl. unfold Spec.totalPLPercent, Spec.totalPL. rewrite Htotal.
  rewrite Binary64Order.sub_diag by done. split_and!; [done..| | |].
  - destruct (0 <? _) eqn:Hpos; [|done]. by rewrite Binary64Order.zero_div_pos.
  - apply Forall_fmap. eapply Forall_impl; [done|]. intros pos [Hprice Hposfin].
    by apply valued_at_cost.
  - unfold Spec.totalCostBasis. by intros ->.
Qed.

(** The example portfolio valued at the prices it was bought at. *)
Lemma valuation_at_cost_witness :
  exists valued,
    calculate_portfolio_metrics
      (fun ticker => if String.eqb ticker "AAPL" then 100 else 250) Example.held = inr valued
    /\ Portfolio.totalValue valued = Some 100000
    /\ Portfolio.totalPL valued = Some 0
    /\ Portfolio.totalPLPercent valued = Some 0.
Proof.
  destruct (valuation_at_cost (fun ticker => if String.eqb ticker "AAPL" then 100 else 250)
              Example.held)
    as (valued & Hvalued & Htotal & Hpl & Hpercent & _).
  - repeat constructor.
  - vm_compute. reflexivity.
  - exists valued. split_and!; [done| |done..].
    rewrite Htotal. vm_compute. reflexivity.
Defined.

(** ** The price lookup *)

(** X6.  A price lookup that fails, or that finds no row, degrades to the
    price [0.0] instead of failing the valuation: every position of that
    ticker is valued at [currentPrice] 0.0 and, when its quantity is finite,
    at a market value of zero.  A lookup that finds rows answers with the last
    close. *)
Theorem failed_lookup_prices_at_zero (history : string -> option (list float)) ticker :
  (history ticker = None \/ history ticker = Some [] ->
   get_current_price history ticker = 0
   /\ forall pos,
        Position.ticker pos = ticker ->
        exists valued market_value cost_basis,
          value_position (get_current_price history) pos
          = inr (valued, market_value, cost_basis)
          /\ Position.currentPrice valued = Some 0
          /\ Position.marketValue valued = Some market_value
          /\ (is_finite (Position.quantity pos) = true -> (market_value =? 0) = true))
  /\ (forall closes close,
        history ticker = Some (closes ++ [close]) ->
        get_current_price history ticker = close).
Proof.
  split.
  - intros Hfail.
    assert (get_current_price history ticker = 0) as Hzero.
    { unfold get_current_price. by destruct Hfail as [-> | ->]. }
    split; [done|]. intros pos Hticker. rewrite value_position_total.
    eexists _, _, _. split; [done|]. simpl. unfold Spec.marketValue.
    rewrite Hticker, Hzero. split_and!; [done..|]. apply Binary64Order.mul_zero_finite.
  - intros closes close Hsome. unfold get_current_price. by rewrite Hsome, last_snoc.
Qed.

Lemma failed_lookup_prices_at_zero_witness :
  get_current_price (fun ticker => if String.eqb ticker "AAPL" then Some [179; 180] else None)
    "MSFT" = 0
  /\ get_current_price (fun ticker => if String.eqb ticker "AAPL" then Some [179; 180] else None)
       "AAPL" = 180.
Proof.
  split.
  - apply (proj1 (failed_lookup_prices_at_zero
                    (fun ticker => if String.eqb ticker "AAPL" then Some [179; 180] else None)
                    "MSFT")).
    by left.
  - vm_compute. reflexivity.
Defined.

(** ** The handlers and the file *)

(** What an accepted operation leaves alone: the owner and the derived keys
    of the portfolio. *)
Lemma apply_shape op portfolio answer portfolio' :
  apply op portfolio = Returned answer portfolio' ->
  portfolio' = Portfolio.mk (Portfolio.userId portfolio) (Portfolio.cash portfolio')
                 (Portfolio.positions portfolio') (Portfolio.transactions portfolio')
                 (Portfolio.totalValue portfolio) (Portfolio.totalPL portfolio)
                 (Portfolio.totalPLPercent portfolio).
Proof.
  destruct op as [order added_at timestamp|order timestamp]; simpl.
  - rewrite buy_stock_body_cases.
    destruct (Portfolio.cash portfolio <? _); [done|].
    destruct (find_position _ _) as [[i pos]|].
    + destruct (Position.quantity pos + _ =? 0); [done|]. by intros [= _ <-].
    + by intros [= _ <-].
  - rewrite sell_stock_body_cases.
    destruct (find_position _ _) as [[i pos]|]; [|done].
    destruct (Position.quantity pos <? _); [done|]. by intros [= _ <-].
Qed.

Lemma load_save portfolios : load_portfolios (save_portfolios portfolios) = portfolios.
Proof. done. Qed.

(** The exceptions of the two bodies. *)
Lemma apply_raises op portfolio e s :
  apply op portfolio = Raised e s ->
  match op with
  | Buy order _ _ =>
      e = InsufficientFunds /\ s = portfolio
      \/ e = ZeroDivisionError
         /\ s = Portfolio.set_cash
                  (Portfolio.cash portfolio
                   - AddPositionRequest.quantity order * AddPositionRequest.price order)
                  portfolio
         /\ (Portfolio.cash portfolio
             <? AddPositionRequest.quantity order * AddPositionRequest.price order) = false
         /\ exists i pos,
              find_position (AddPositionRequest.ticker order) (Portfolio.positions portfolio)
              = Some (i, pos)
              /\ (Position.quantity pos + AddPositionRequest.quantity order =? 0) = true
  | Sell order _ => (e = PositionNotFound \/ e = InsufficientShares) /\ s = portfolio
  end.
Proof.
  destruct op as [order added_at timestamp|order timestamp]; simpl.
  - rewrite buy_stock_body_cases.
    destruct (Portfolio.cash portfolio <? _); [intros [= <- <-]; by left|].
    destruct (find_position _ _) as [[i pos]|]; [|done].
    destruct (Position.quantity pos + _ =? 0) eqn:Hzero; [|done].
    intros [= <- <-]. right. split_and!; [done..|]. by exists i, pos.
  - rewrite sell_stock_body_cases.
    destruct (find_position _ _) as [[i pos]|]; [|intros [= <- <-]; by auto].
    destruct (Position.quantity pos <? _); [intros [= <- <-]; by auto|done].
Qed.

Lemma apply_not_portfolio_not_found op portfolio e s :
  apply op portfolio = Raised e s -> e <> PortfolioNotFound.
Proof.
  intros Hop%apply_raises. destruct op.
  - by destruct Hop as [[-> _]|[-> _]].
  - by destruct Hop as [[-> | ->] _].
Qed.

(** X7.  [get_portfolio] creates the portfolio of the user once: on a file
    (or no file) without it, it saves a portfolio with 100000.0 of cash, no
    position and no transaction, and answers with it valued at 100000.0 with
    no profit or loss; on a file that has it, it leaves the file as it is, so
    calling it again changes nothing.  The portfolios of other users are
    kept, and an order that follows is never refused with
    [PortfolioNotFound]. *)
Theorem get_portfolio_creates_once (price : string -> float)
    (file : option (gmap string Portfolio.t)) :
  let user_id := verify_token None in
  let out := get_portfolio price file in
  (load_portfolios file !! user_id = None ->
   out.1 = Some (<[user_id := new_portfolio user_id]> (load_portfolios file))
   /\ out.2 = inr (Portfolio.mk "user_1" 100000 [] [] (Some 100000) (Some 0) (Some 0)))
  /\ (is_Some (load_portfolios file !! user_id) -> out.1 = file)
  /\ (forall price', (get_portfolio price' out.1).1 = out.1)
  /\ (forall k, k <> user_id -> load_portfolios out.1 !! k = load_portfolios file !! k)
  /\ (forall op, (handle (apply op) out.1).2 <> inl PortfolioNotFound).
Proof.
  intros user_id out.
  assert (exists portfolio, load_portfolios out.1 !! user_id = Some portfolio) as [created Hnow].
  { subst out. unfold get_portfolio. fold user_id.
    destruct (load_portfolios file !! user_id) as [portfolio|] eqn:Hload; simpl.
    - by exists portfolio.
    - eexists. apply lookup_insert_eq. }
  split_and!.
  - intros Hnone. subst out. unfold get_portfolio. fold user_id. by rewrite Hnone.
  - intros [portfolio Hsome]. subst out. unfold get_portfolio. fold user_id.
    by rewrite Hsome.
  - intros price'. unfold get_portfolio at 1. fold user_id. by rewrite Hnow.
  - intros k Hk. subst out. unfold get_portfolio. fold user_id.
    destruct (load_portfolios file !! user_id); simpl; [done|].
    by apply lookup_insert_ne.
  - intros op. unfold handle. fold user_id. rewrite Hnow.
    destruct (apply op created) as [answer s|e s] eqn:Hop; simpl; [done|].
    intros [= ->]. by eapply apply_not_portfolio_not_found.
Qed.

(** The first request of a new user. *)
Lemma get_portfolio_creates_once_witness :
  (get_portfolio Example.quote None).1
  = Some (<["user_1"%string := new_portfolio "user_1"]> ∅)
  /\ (get_portfolio Example.quote None).2
     = inr (Portfolio.mk "user_1" 100000 [] [] (Some 100000) (Some 0) (Some 0)).
Proof.
  apply (proj1 (get_portfolio_creates_once Example.quote None)).
  apply lookup_empty.
Defined.

(** X8.  An order touches the portfolio of the user and nothing else: the
    portfolios of other users are kept; a refused or failed order leaves the
    file as it is; without a portfolio the order is refused with
    [PortfolioNotFound] and none is created; the owner and the derived keys
    of the portfolio are never rewritten by an order. *)
Theorem orders_touch_one_portfolio op (file : option (gmap string Portfolio.t)) :
  let user_id := verify_token None in
  let out := handle (apply op) file in
  (load_portfolios file !! user_id = None -> out = (file, inl PortfolioNotFound))
  /\ (forall e, out.2 = inl e -> out.1 = file)
  /\ (forall k, k <> user_id -> load_portfolios out.1 !! k = load_portfolios file !! k)
  /\ (forall portfolio portfolio',
        load_portfolios file !! user_id = Some portfolio ->
        load_portfolios out.1 !! user_id = Some portfolio' ->
        Portfolio.userId portfolio' = Portfolio.userId portfolio
        /\ Portfolio.totalValue portfolio' = Portfolio.totalValue portfolio
        /\ Portfolio.totalPL portfolio' = Portfolio.totalPL portfolio
        /\ Portfolio.totalPLPercent portfolio' = Portfolio.totalPLPercent portfolio).
Proof.
  intros user_id out. subst out. unfold handle. fold user_id.
  destruct (load_portfolios file !! user_id) as [portfolio|] eqn:Hload; [|done].
  destruct (apply op portfolio) as [answer s|e s] eqn:Hop; simpl.
  - split_and!; [done|done| |].
    + intros k Hk. by apply lookup_insert_ne.
    + intros p p' [= <-]. rewrite lookup_insert_eq. intros [= <-].
      apply apply_shape in Hop. by rewrite Hop.
  - split_and!; [done..|]. intros p p' [= <-]. rewrite Hload. by intros [= <-].
Qed.

Lemma orders_touch_one_portfolio_witness :
  handle (apply (Buy Example.buy_aapl Example.now Example.now)) None
  = (None, inl PortfolioNotFound).
Proof.
  apply (proj1 (orders_touch_one_portfolio
                  (Buy Example.buy_aapl Example.now Example.now) None)).
  apply lookup_empty.
Defined.

(** X9.  An accepted order shows in the transaction history: after it,
    [get_transactions] answers with the former history followed by one
    transaction, which carries the id the order was answered with (one more
    than the length of the former history) and the ticker, side, quantity and
    price that were asked.  After a refused or failed order the history is
    the former one.  Without a portfolio the history is empty, not an
    error. *)
Theorem accepted_order_shows_in_history op (file : option (gmap string Portfolio.t)) :
  let out := handle (apply op) file in
  (forall answer,
     out.2 = inr answer ->
     exists txn,
       get_transactions out.1 = get_transactions file ++ [txn]
       /\ Transaction.id txn = transactionId answer
       /\ Transaction.id txn = txn_id (length (get_transactions file) + 1)
       /\ order_logged txn = order_asked op)
  /\ (forall e, out.2 = inl e -> get_transactions out.1 = get_transactions file)
  /\ (load_portfolios file !! verify_token None = None -> get_transactions file = []).
Proof.
  intros out. subst out. unfold handle, get_transactions.
  destruct (load_portfolios file !! verify_token None) as [portfolio|] eqn:Hload;
    [|by split_and!; intros; simplify_eq/=; rewrite ?Hload].
  destruct (apply op portfolio) as [answer s|e s] eqn:Hop; simpl.
  - split_and!; [|done..]. intros ? [= <-]. rewrite lookup_insert_eq.
    apply apply_appends in Hop as [Hlog Hanswer].
    exists (transaction_of op portfolio). split_and!; [done|done| |by destruct op].
    apply transaction_of_id.
  - split_and!; [done| |done]. intros ? _. by rewrite Hload.
Qed.

Lemma accepted_order_shows_in_history_witness :
  exists txn,
    get_transactions
      (handle (apply (Sell Example.sell_aapl Example.now))
         (Some {[ "user_1"%string := Example.held ]})).1
    = get_transactions (Some {[ "user_1"%string := Example.held ]}) ++ [txn]
    /\ Transaction.id txn = "txn_3"%string
    /\ order_logged txn = ("AAPL"%string, "sell"%string, 4, 120).
Proof.
  destruct (proj1 (accepted_order_shows_in_history (Sell Example.sell_aapl Example.now)
                     (Some {[ "user_1"%string := Example.held ]}))
              (mk_response "Stock sold successfully" "txn_3"))
    as (txn & Hlog & Hid & _ & Horder).
  - unfold handle. simpl load_portfolios.
    rewrite lookup_singleton_eq. vm_compute. reflexivity.
  - by exists txn.
Defined.

(** X10.  The one way [buy_stock] fails with something else than an HTTP
    error: it raises [ZeroDivisionError] exactly when the portfolio exists,
    the cash covers the order, the ticker is held and the held quantity plus
    the ordered one is zero.  The cash was then already deducted in memory,
    but nothing is saved.  [sell_stock] raises HTTP errors only. *)
Theorem buy_divides_by_zero order added_at timestamp
    (file : option (gmap string Portfolio.t)) :
  let q := AddPositionRequest.quantity order in
  let cost := q * AddPositionRequest.price order in
  ((buy_stock order added_at timestamp file).2 = inl ZeroDivisionError <->
   exists portfolio i pos,
     load_portfolios file !! verify_token None = Some portfolio
     /\ (Portfolio.cash portfolio <? cost) = false
     /\ find_position (AddPositionRequest.ticker order) (Portfolio.positions portfolio)
        = Some (i, pos)
     /\ (Position.quantity pos + q =? 0) = true
     /\ buy_stock_body order added_at timestamp portfolio
        = Raised ZeroDivisionError
            (Portfolio.set_cash (Portfolio.cash portfolio - cost) portfolio))
  /\ ((buy_stock order added_at timestamp file).2 = inl ZeroDivisionError ->
      (buy_stock order added_at timestamp file).1 = file)
  /\ (forall sale timestamp' e,
        (sell_stock sale timestamp' file).2 = inl e ->
        exists status_code detail, e = HTTPException status_code detail).
Proof.
  intros q cost. unfold buy_stock, sell_stock, handle. split_and!.
  - destruct (load_portfolios file !! verify_token None) as [portfolio|] eqn:Hload.
    + split.
      * destruct (buy_stock_body _ _ _ portfolio) as [answer s|e s] eqn:Hbuy; simpl; [done|].
        intros [= ->].
        destruct (apply_raises (Buy order added_at timestamp) _ _ _ Hbuy)
          as [[? _]|(_ & -> & Hcash & i & pos & Hfind & Hzero)]; [done|].
        by exists portfolio, i, pos.
      * intros (p & i & pos & [= <-] & _ & _ & _ & ->). done.
    + split; [done|]. by intros (p & i & pos & ? & _).
  - destruct (load_portfolios file !! verify_token None) as [portfolio|]; [|done].
    by destruct (buy_stock_body _ _ _ portfolio).
  - intros sale timestamp' e.
    destruct (load_portfolios file !! verify_token None) as [portfolio|];
      [|intros [= <-]; by eexists _, _].
    destruct (sell_stock_body _ _ portfolio) as [answer s|e' s] eqn:Hsell; simpl; [done|].
    intros [= ->].
    apply (apply_raises (Sell sale timestamp')) in Hsell as [[-> | ->] _]; by eexists _, _.
Qed.

(** Buying -10 AAPL while holding 10: the handler fails and the file stays. *)
Lemma buy_divides_by_zero_witness :
  (buy_stock Example.sell_all_aapl_short Example.now Example.now
     (Some {[ "user_1"%string := Example.held ]})).2 = inl ZeroDivisionError
  /\ (buy_stock Example.sell_all_aapl_short Example.now Example.now
        (Some {[ "user_1"%string := Example.held ]})).1
     = Some {[ "user_1"%string := Example.held ]}.
Proof.
  assert ((buy_stock Example.sell_all_aapl_short Example.now Example.now
             (Some {[ "user_1"%string := Example.held ]})).2 = inl ZeroDivisionError) as Hfails.
  { apply (proj1 (buy_divides_by_zero Example.sell_all_aapl_short Example.now Example.now
                    (Some {[ "user_1"%string := Example.held ]}))).
    exists Example.held, 0%nat, Example.aapl. split_and!.
    - apply lookup_singleton_eq.
    - vm_compute. reflexivity.
    - vm_compute. reflexivity.
    - vm_compute. reflexivity.
    - vm_compute. reflexivity. }
  split; [done|].
  by apply (proj1 (proj2 (buy_divides_by_zero Example.sell_all_aapl_short Example.now
                            Example.now (Some {[ "user_1"%string := Example.held ]})))).
Defined.

(** X11.  [get_performance] and [get_portfolio] agree: on a file that holds
    the user's portfolio, the report's [currentValue], [totalPL],
    [totalPLPercent] and [cash] are the [totalValue], [totalPL],
    [totalPLPercent] and [cash] of the portfolio [get_portfolio] answers with
    at the same prices, and neither changes the file.  Without a portfolio
    they differ: [get_performance] is refused with [PortfolioNotFound] where
    [get_portfolio] creates one. *)
Theorem performance_matches_portfolio (price : string -> float)
    (file : option (gmap string Portfolio.t)) :
  (load_portfolios file !! verify_token None = None ->
   get_performance price file = inl PortfolioNotFound
   /\ is_Some (load_portfolios (get_portfolio price file).1 !! verify_token None))
  /\ (is_Some (load_portfolios file !! verify_token None) ->
      exists valued report totalValue,
        get_portfolio price file = (file, inr valued)
        /\ get_performance price file = inr report
        /\ Portfolio.totalValue valued = Some totalValue
        /\ Performance.currentValue report = totalValue
        /\ Portfolio.totalPL valued = Some (Performance.totalPL report)
        /\ Portfolio.totalPLPercent valued = Some (Performance.totalPLPercent report)
        /\ Performance.cash report = Portfolio.cash valued
        /\ Performance.investedValue report = totalValue - Portfolio.cash valued
        /\ Performance.totalReturn report = (totalValue - 100000) / 100000 * 100).
Proof.
  unfold get_performance, get_portfolio. split.
  - intros ->. split; [done|]. simpl. rewrite lookup_insert_eq. by eexists.
  - intros [portfolio ->]. unfold performance_of.
    rewrite calculate_portfolio_metrics_total. by eexists _, _, _.
Qed.

Lemma performance_matches_portfolio_witness :
  exists valued report totalValue,
    get_portfolio Example.quote (Some {[ "user_1"%string := Example.held ]})
    = (Some {[ "user_1"%string := Example.held ]}, inr valued)
    /\ get_performance Example.quote (Some {[ "user_1"%string := Example.held ]}) = inr report
    /\ Portfolio.totalValue valued = Some totalValue
    /\ Performance.currentValue report = totalValue.
Proof.
  destruct (proj2 (performance_matches_portfolio Example.quote
                     (Some {[ "user_1"%string := Example.held ]})))
    as (valued & report & totalValue & Hportfolio & Hreport & Htotal & Hcurrent & _).
  - exists Example.held. apply lookup_singleton_eq.
  - by exists valued, report, totalValue.
Defined.

(** ** The file along a session *)

Lemma fmap_fixed {A} (f : A -> A) (l : list A) :
  f <$> l = l <-> Forall (fun x => f x = x) l.
Proof.
  induction l as [|x l IH]; simpl; [by split; [constructor|]|]. split.
  - intros [= Hx Hl]. constructor; [done|]. by apply IH.
  - intros [Hx Hl]%Forall_cons. f_equal; [done|]. by apply IH.
Qed.

Lemma unvalued_bought order pos : unvalued pos = pos -> unvalued (bought order pos) = bought order pos.
Proof. destruct pos. unfold unvalued, bought. simpl. by intros [= -> -> -> ->]. Qed.

Lemma unvalued_sold order pos : unvalued pos = pos -> unvalued (sold order pos) = sold order pos.
Proof. destruct pos. unfold unvalued, sold. simpl. by intros [= -> -> -> ->]. Qed.

Lemma apply_unvalued op portfolio answer portfolio' :
  apply op portfolio = Returned answer portfolio' ->
  unvalued <$> Portfolio.positions portfolio = Portfolio.positions portfolio ->
  unvalued <$> Portfolio.positions portfolio' = Portfolio.positions portfolio'.
Proof.
  intros Hop%apply_positions Hbare%fmap_fixed. apply fmap_fixed.
  destruct op as [order added_at timestamp|order timestamp].
  - destruct (find_position _ _) as [[i pos]|] eqn:Hfind; rewrite Hop.
    + apply find_position_Some in Hfind as [Hi _].
      apply Forall_insert; [done|]. apply unvalued_bought.
      by eapply (Forall_lookup_1 _ _ _ _ Hbare).
    + apply Forall_app. split; [done|]. by repeat constructor.
  - destruct Hop as (i & pos & Hfind & _ & [[_ ->]|[_ ->]]); [by apply Forall_delete|].
    apply find_position_Some in Hfind as [Hi _].
    apply Forall_insert; [done|]. apply unvalued_sold.
    by eapply (Forall_lookup_1 _ _ _ _ Hbare).
Qed.

Lemma stored_ok_new : stored_ok (new_portfolio "user_1").
Proof. split_and!; [done|done|constructor|done]. Qed.

Lemma apply_stored_ok op portfolio answer portfolio' :
  stored_ok portfolio ->
  apply op portfolio = Returned answer portfolio' ->
  stored_ok portfolio'.
Proof.
  intros (Huser & Hseq & Hnodup & Hbare) Hop.
  pose proof (apply_shape _ _ _ _ Hop) as Hshape.
  pose proof (apply_appends _ _ _ _ Hop) as [Hlog _].
  split_and!.
  - by rewrite Hshape.
  - rewrite Hlog. apply sequential_snoc; [done|]. apply transaction_of_id.
  - by eapply apply_unique_tickers.
  - pose proof (f_equal Portfolio.positions Hbare) as Hpositions.
    pose proof (f_equal Portfolio.totalValue Hbare) as HtotalValue.
    pose proof (f_equal Portfolio.totalPL Hbare) as HtotalPL.
    pose proof (f_equal Portfolio.totalPLPercent Hbare) as HtotalPLPercent.
    simpl in *. rewrite Hshape at 2. unfold ledger_of.
    rewrite (apply_unvalued _ _ _ _ Hop Hpositions).
    rewrite Hshape. simpl. by rewrite <- HtotalValue, <- HtotalPL, <- HtotalPLPercent.
Qed.

Lemma handle_file_ok op file : file_ok file -> file_ok (handle (apply op) file).1.
Proof.
  intros Hfile. unfold handle.
  destruct (load_portfolios file !! verify_token None) as [portfolio|] eqn:Hload; [|done].
  destruct (apply op portfolio) as [answer s|e s] eqn:Hop; [|done].
  intros k p. simpl. destruct (decide (k = verify_token None)) as [->|Hk].
  - rewrite lookup_insert_eq. intros [= <-]. split; [done|].
    eapply apply_stored_ok; [|done]. by eapply Hfile.
  - rewrite lookup_insert_ne by done. apply Hfile.
Qed.

Lemma get_portfolio_file_ok price file : file_ok file -> file_ok (get_portfolio price file).1.
Proof.
  intros Hfile. unfold get_portfolio.
  destruct (load_portfolios file !! verify_token None) as [portfolio|] eqn:Hload; [done|].
  intros k p. simpl. destruct (decide (k = verify_token None)) as [->|Hk].
  - rewrite lookup_insert_eq. intros [= <-]. split; [done|]. apply stored_ok_new.
  - rewrite lookup_insert_ne by done. apply Hfile.
Qed.

(** X12.  Whatever requests the service answers, in whatever order and with
    whatever arguments, starting without a file (or from a well-formed one),
    the file stays well-formed: it holds no portfolio but the mock user's,
    which carries his id, a transaction log numbered [txn_1], [txn_2], ... in
    order, at most one position per ticker, and no derived key (the
    valuations computed for [get_portfolio] and [get_performance] are never
    written back). *)
Theorem service_keeps_file_well_formed (rs : list ((string -> float) * request)) :
  file_ok (serve_all rs None)
  /\ forall file, file_ok file -> file_ok (serve_all rs file).
Proof.
  assert (forall file, file_ok file -> file_ok (serve_all rs file)) as Hall.
  { induction rs as [|[price r] rs IH]; intros file Hfile; simpl; [done|].
    apply IH. destruct r; simpl; [|apply (handle_file_ok (Buy _ _ _))
                                   |apply (handle_file_ok (Sell _ _))|..]; try done.
    by apply get_portfolio_file_ok. }
  split; [|done]. apply Hall. by intros k p.
Qed.

(** A first session: the portfolio is created, 10 AAPL are bought, more are
    sold than held (refused), and the history is read. *)
Lemma service_keeps_file_well_formed_witness :
  exists portfolio,
    load_portfolios
      (serve_all [(Example.quote, GetPortfolio);
                  (Example.quote, PostBuy Example.buy_aapl Example.now Example.now);
                  (Example.quote, PostSell Example.sell_too_much Example.now);
                  (Example.quote, GetTransactions)] None) !! "user_1"%string
    = Some portfolio
    /\ Portfolio.cash portfolio = 98000
    /\ stored_ok portfolio.
Proof.
  eexists. split; [vm_compute; reflexivity|]. split; [reflexivity|].
  apply (proj1 (service_keeps_file_well_formed
                  [(Example.quote, GetPortfolio);
                   (Example.quote, PostBuy Example.buy_aapl Example.now Example.now);
                   (Example.quote, PostSell Example.sell_too_much Example.now);
                   (Example.quote, GetTransactions)]) "user_1"%string).
  vm_compute. reflexivity.
Defined.

(** ** Sequences of orders *)

Lemma apply_cash op portfolio answer portfolio' :
  apply op portfolio = Returned answer portfolio' ->
  Portfolio.cash portfolio' = book (Portfolio.cash portfolio) op.
Proof.
  destruct op as [order added_at timestamp|order timestamp]; simpl.
  - rewrite buy_stock_body_cases.
    destruct (Portfolio.cash portfolio <? _); [done|].
    destruct (find_position _ _) as [[i pos]|].
    + destruct (Position.quantity pos + _ =? 0); [done|]. by intros [= _ <-].
    + by intros [= _ <-].
  - rewrite sell_stock_body_cases.
    destruct (find_position _ _) as [[i pos]|]; [|done].
    destruct (Position.quantity pos <? _); [done|]. by intros [= _ <-].
Qed.

Lemma final_cons portfolio portfolio' states :
  final portfolio (portfolio' :: states) = final portfolio' states.
Proof. unfold final. rewrite last_cons. by destruct (last states). Qed.

(** X13.  Accepted orders are booked in the order they came: after a
    sequence of accepted buys and sells, the transaction log is the initial
    one followed by one transaction per order, in order, each with the
    ticker, side, quantity and price of its order; and the cash is the
    initial cash from which the value of each buy was subtracted and to which
    the value of each sell was added, in that order. *)
Theorem accepted_orders_are_booked ops portfolio states :
  run ops portfolio = inr states ->
  length states = length ops
  /\ Portfolio.cash (final portfolio states) = fold_left book ops (Portfolio.cash portfolio)
  /\ exists new,
       Portfolio.transactions (final portfolio states)
       = Portfolio.transactions portfolio ++ new
       /\ order_logged <$> new = order_asked <$> ops.
Proof.
  revert portfolio states. induction ops as [|op ops IH]; intros portfolio states; simpl.
  - intros [= <-]. split_and!; [done..|]. exists []. by rewrite app_nil_r.
  - destruct (apply op portfolio) as [answer portfolio'|] eqn:Hop; [|done].
    destruct (run ops portfolio') as [|states'] eqn:Hrun; [done|].
    intros [= <-]. rewrite final_cons.
    destruct (IH portfolio' states' Hrun) as (Hlen & Hcash & new & Hlog & Hnew).
    apply apply_appends in Hop as Happ. destruct Happ as [Hlog' _].
    split_and!.
    + simpl. by rewrite Hlen.
    + by rewrite Hcash, (apply_cash _ _ _ _ Hop).
    + exists (transaction_of op portfolio :: new). split.
      * by rewrite Hlog, Hlog', <- app_assoc.
      * rewrite !fmap_cons, Hnew. f_equal. by destruct op.
Qed.

Lemma accepted_orders_are_booked_witness :
  exists states new,
    run Example.scenario (new_portfolio "user_1") = inr states
    /\ Portfolio.cash (final (new_portfolio "user_1") states) = 100000 - 1500 - 1700 + 1000
    /\ Portfolio.transactions (final (new_portfolio "user_1") states) = [] ++ new
    /\ order_logged <$> new
       = [("AAPL"%string, "buy"%string, 10, 150); ("AAPL"%string, "buy"%string, 10, 170);
          ("AAPL"%string, "sell"%string, 5, 200)].
Proof.
  eexists. 
  destruct (accepted_orders_are_booked Example.scenario (new_portfolio "user_1") _
              ltac:(vm_compute; reflexivity)) as (_ & Hcash & new & Hlog & Hnew).
  exists new. split; [vm_compute; reflexivity|]. split_and!; [|done..].
  rewrite Hcash. vm_compute. reflexivity.
Defined.

(** X14.  Selling exactly the held quantity, when it is finite, closes the
    position: the sell is accepted and the position is deleted, the others
    being kept in order; with one position per ticker none of that ticker is
    left, so that selling it again is refused with [PositionNotFound]. *)
Theorem selling_everything_closes_position order timestamp portfolio i pos :
  find_position (RemovePositionRequest.ticker order) (Portfolio.positions portfolio)
  = Some (i, pos) ->
  is_finite (Position.quantity pos) = true ->
  (Position.quantity pos =? RemovePositionRequest.quantity order) = true ->
  exists answer portfolio',
    sell_stock_body order timestamp portfolio = Returned answer portfolio'
    /\ Portfolio.positions portfolio' = delete i (Portfolio.positions portfolio)
    /\ (NoDup (Position.ticker <$> Portfolio.positions portfolio) ->
        forall again timestamp',
          RemovePositionRequest.ticker again = RemovePositionRequest.ticker order ->
          sell_stock_body again timestamp' portfolio' = Raised PositionNotFound portfolio').
Proof.
  intros Hfind Hfin Heq. rewrite sell_stock_body_cases, Hfind.
  rewrite (Binary64.eqb_not_ltb _ _ Heq), (Binary64.sub_eqb_zero _ _ Hfin Heq).
  eexists _, _. split; [done|]. simpl. rewrite delete_insert_same. split; [done|].
  intros Hnodup again timestamp' Hticker. rewrite sell_stock_body_cases. simpl.
  by rewrite Hticker, (find_position_delete _ _ _ _ Hfind Hnodup).
Qed.

Lemma selling_everything_closes_position_witness :
  exists answer portfolio',
    sell_stock_body Example.sell_all_msft Example.now Example.held = Returned answer portfolio'
    /\ Portfolio.positions portfolio' = [Example.aapl]
    /\ sell_stock_body Example.sell_too_much Example.now portfolio'
       = Raised PositionNotFound portfolio'.
Proof.
  destruct (selling_everything_closes_position Example.sell_all_msft Example.now Example.held
              1%nat Example.msft)
    as (answer & portfolio' & Hsell & Hpositions & Hagain);
    [vm_compute; reflexivity..|].
  exists answer, portfolio'. split_and!; [done|done|].
  apply Hagain; [|done]. apply (bool_decide_unpack _). vm_compute. exact I.
Defined.

(** X15.  Buying a ticker that is not held and selling the same finite
    quantity of it right away gives the positions back as they were: both
    orders are accepted when the cash covers the buy, the position created
    by the buy is deleted by the sell, two transactions are logged, and the
    cash is the initial one minus the cost plus the proceeds. *)
Theorem buy_then_sell_restores_positions
    ticker q buy_price sell_price added_at timestamp timestamp' portfolio :
  find_position ticker (Portfolio.positions portfolio) = None ->
  (Portfolio.cash portfolio <? q * buy_price) = false ->
  is_finite q = true ->
  exists bought_state sold_state,
    run [Buy (AddPositionRequest.mk ticker q buy_price) added_at timestamp;
         Sell (RemovePositionRequest.mk ticker q sell_price) timestamp'] portfolio
    = inr [bought_state; sold_state]
    /\ Portfolio.positions sold_state = Portfolio.positions portfolio
    /\ Portfolio.cash sold_state = Portfolio.cash portfolio - q * buy_price + q * sell_price
    /\ length (Portfolio.transactions sold_state)
       = (length (Portfolio.transactions portfolio) + 2)%nat.
Proof.
  intros Hnone Hfunds Hfin. simpl. rewrite buy_stock_body_cases. simpl.
  rewrite Hfunds, Hnone. rewrite sell_stock_body_cases. simpl.
  rewrite (find_position_append ticker _
             (Position.mk ticker q buy_price None None None None added_at) Hnone eq_refl).
  simpl.
  rewrite (Binary64.eqb_not_ltb _ _ (Binary64Order.finite_eqb_refl _ Hfin)).
  rewrite (Binary64Order.sub_diag _ Hfin).
  change (0 =? 0) with true. cbv iota.
  eexists _, _. split; [done|]. simpl. split_and!; [|done|].
  - rewrite delete_insert_same, delete_middle. apply app_nil_r.
  - rewrite !length_app. simpl. lia.
Qed.

Lemma buy_then_sell_restores_positions_witness :
  exists bought_state sold_state,
    run [Buy (AddPositionRequest.mk "GOOG" 2 140) Example.now Example.now;
         Sell (RemovePositionRequest.mk "GOOG" 2 150) Example.now] Example.held
    = inr [bought_state; sold_state]
    /\ Portfolio.positions sold_state = [Example.aapl; Example.msft]
    /\ Portfolio.cash sold_state = 98000 - 2 * 140 + 2 * 150.
Proof.
  destruct (buy_then_sell_restores_positions "GOOG" 2 140 150 Example.now Example.now
              Example.now Example.held)
    as (bought_state & sold_state & Hrun & Hpositions & Hcash & _);
    [vm_compute; reflexivity..|].
  by exists bought_state, sold_state.
Defined.
